(** * go-strato: the Strato control-panel client (client.go, cmd/main.go)

    A shallow embedding of [client.go]: the data model ([DNSRecord],
    [DNSConfig], [StratoClient]), the login handshake ([authenticate]), the
    customer-identifier lookup ([populatePackageID]), the reader
    ([GetDNSConfiguration]) and the writer ([SetDNSConfiguration]), and of the
    command-line program of [cmd/main.go], followed by the properties of the
    specification that concern them and by further properties of the code.

    The client is written against four libraries (net/http, net/url,
    antchfx/htmlquery, net/http/cookiejar).  Their operations are the fields
    of the class [GoEnv]; the client code is translated once, for every
    implementation of that interface.  The module [Sim] at the end of the
    definitions is one implementation (a scripted server and a small DOM) on
    which the client can be run.

    Not modelled: klog output (it changes nothing the client can observe),
    [resp.Body.Close], and panics of the XPath compiler on an expression it
    rejects. *)

From Stdlib Require Import ZArith String Ascii List Lia.
From stdpp Require Import base strings list.

#[local] Set Warnings "-register-all".
Local Open Scope string_scope.
Local Open Scope list_scope.
Local Open Scope Z_scope.

(** ** Go's [strings] package, as far as the client uses it *)

(** [s[n:]] *)
Fixpoint string_drop (n : nat) (s : string) : string :=
  match n, s with
  | O, _ => s
  | S _, EmptyString => EmptyString
  | S n', String _ s' => string_drop n' s'
  end.

(** [strings.HasPrefix(s, prefix)] *)
Definition strings_HasPrefix (s prefix : string) : bool := String.prefix prefix s.

(** [strings.TrimPrefix(s, prefix)]: [s[len(prefix):]] when [s] starts with
    [prefix], [s] otherwise. *)
Definition strings_TrimPrefix (s prefix : string) : string :=
  if strings_HasPrefix s prefix then string_drop (String.length prefix) s else s.

(** [strings.Split(s, sep)] for a separator of one byte, the only way the
    client calls it: one more piece than there are separators. *)
Fixpoint strings_Split (s : string) (sep : ascii) : list string :=
  match s with
  | EmptyString => [EmptyString]
  | String c s' =>
      if Ascii.eqb c sep then EmptyString :: strings_Split s' sep
      else match strings_Split s' sep with
           | [] => [String c EmptyString]
           | p :: ps => String c p :: ps
           end
  end.

(** [strings.Join(elems, sep)] *)
Definition strings_Join (elems : list string) (sep : string) : string :=
  String.concat sep elems.

(** [strings.Cut(s, sep)] for a separator of one byte, without the flag *)
Fixpoint strings_Cut (s : string) (sep : ascii) : string * string :=
  match s with
  | EmptyString => (EmptyString, EmptyString)
  | String c s' =>
      if Ascii.eqb c sep then (EmptyString, s')
      else let '(a, b) := strings_Cut s' sep in (String c a, b)
  end.

(** ** Reading application/x-www-form-urlencoded data

    What a peer does with a body of that content type (and what
    [url.ParseQuery] does with a query): cut at every '&', cut each piece at
    its first '=', undo the escapes. *)

Definition unhex (c : ascii) : option nat :=
  let n := nat_of_ascii c in
  if (48 <=? n)%nat && (n <=? 57)%nat then Some (n - 48)%nat
  else if (65 <=? n)%nat && (n <=? 70)%nat then Some (n - 55)%nat
  else if (97 <=? n)%nat && (n <=? 102)%nat then Some (n - 87)%nat
  else None.

(** [url.QueryUnescape] *)
Fixpoint url_QueryUnescape (s : string) : option string :=
  match s with
  | EmptyString => Some EmptyString
  | String "+" r => String " " <$> url_QueryUnescape r
  | String "%" (String h (String l r)) =>
      match unhex h, unhex l with
      | Some a, Some b => String (ascii_of_nat (16 * a + b)) <$> url_QueryUnescape r
      | _, _ => None
      end
  | String "%" _ => None
  | String c r => String c <$> url_QueryUnescape r
  end.

(** the fields of a body, in order; a piece that cannot be read is dropped *)
Definition form_urldecode (body : string) : list (string * string) :=
  flat_map
    (λ piece,
       if (piece =? "")%string then []
       else let '(k, v) := strings_Cut piece "=" in
            match url_QueryUnescape k, url_QueryUnescape v with
            | Some k, Some v => [(k, v)]
            | _, _ => []
            end)
    (strings_Split body "&").

(** the builtin [append(s, x)] *)
Definition go_append {A : Type} (s : list A) (x : A) : list A := (s ++ [x])%list.

(** ** Errors and results *)

(** An [error] value is either made by the client with [errors.New] or handed
    up unchanged from a library. *)
Inductive error : Type :=
  | errors_New (msg : string)
  | lib_error (msg : string).

(** A Go pair [(value, err)] with exactly one side meaningful. *)
Inductive result (A : Type) : Type :=
  | Ok (a : A)
  | Err (e : error).
Arguments Ok {A} a.
Arguments Err {A} e.

(** ** net/http and net/url data *)

(** [http.Header] and [url.Values] are both [map[string][]string]: here a
    list of entries in which no key is repeated. *)
Definition Values : Type := list (string * list string).

(** [v[key]] *)
Fixpoint Values_lookup (v : Values) (key : string) : option (list string) :=
  match v with
  | [] => None
  | (k, vs) :: rest => if (k =? key)%string then Some vs else Values_lookup rest key
  end.

(** [Get]: the first value of the key, [""] when there is none *)
Definition Values_Get (v : Values) (key : string) : string :=
  match Values_lookup v key with
  | Some (x :: _) => x
  | _ => ""
  end.

(** [Set]: the key's values become the one value *)
Fixpoint Values_Set (key value : string) (v : Values) : Values :=
  match v with
  | [] => [(key, [value])]
  | (k, vs) :: rest =>
      if (k =? key)%string then (k, [value]) :: rest
      else (k, vs) :: Values_Set key value rest
  end.

(** [Add]: one more value for the key *)
Fixpoint Values_Add (key value : string) (v : Values) : Values :=
  match v with
  | [] => [(key, [value])]
  | (k, vs) :: rest =>
      if (k =? key)%string then (k, vs ++ [value]) :: rest
      else (k, vs) :: Values_Add key value rest
  end.

Record Request : Type := mkRequest {
  Method : string;
  ReqURL : string;
  ReqHeader : Values;
  ReqBody : option string
}.

Definition Request_Header_Set (key value : string) (req : Request) : Request :=
  {| Method := Method req; ReqURL := ReqURL req;
     ReqHeader := Values_Set key value (ReqHeader req);
     ReqBody := ReqBody req |}.

Record Response (B : Type) : Type := mkResponse {
  Status : string;
  StatusCode : Z;
  Header : Values;
  Body : B
}.
Arguments mkResponse {B} _ _ _ _.
Arguments Status {B} _.
Arguments StatusCode {B} _.
Arguments Header {B} _.
Arguments Body {B} _.

Definition http_StatusOK : Z := 200.
Definition http_StatusFound : Z := 302.

(** [http.ErrUseLastResponse] *)
Definition http_ErrUseLastResponse : error := lib_error "net/http: use last response".

(** [http.Client]: the fields the constructor sets. *)
Record http_Client (J : Type) : Type := mkClient {
  Jar : J;
  CheckRedirect : Request -> list Request -> option error
}.
Arguments mkClient {J} _ _.
Arguments Jar {J} _.
Arguments CheckRedirect {J} _.

(** ** The libraries the client is written against *)

Class GoEnv : Type := {
  (** whatever [Do] can read and change: the peer and the cookie jar's content *)
  World : Type;
  CookieJar : Type;
  URL : Type;
  (** what [resp.Body] delivers *)
  Payload : Type;
  (** a pointer to an [html.Node], not nil *)
  Node : Type;
  (** [cookiejar.New(nil)] *)
  cookiejar_New : result CookieJar;
  (** [url.Parse] and the [Query] method of its result *)
  url_Parse : string -> result URL;
  URL_Query : URL -> Values;
  (** the [Do] method of [http.Client] *)
  http_Do : http_Client CookieJar -> Request -> World -> result (Response Payload) * World;
  (** [htmlquery.Parse], [FindOne], [Find], [InnerText] *)
  htmlquery_Parse : Payload -> result Node;
  htmlquery_FindOne : Node -> string -> option Node;
  htmlquery_Find : Node -> string -> list Node;
  htmlquery_InnerText : Node -> string;
  (** the value of the first attribute of that name, [""] when there is none *)
  Node_attr : Node -> string -> string
}.

(** ** Data model (client.go, lines 15-36) *)

Record DNSRecord : Type := mkDNSRecord {
  Type_ : string;
  Prefix : string;
  Value : string
}.

Record DNSConfig : Type := mkDNSConfig {
  DMARCType : string;
  SPFType : string;
  Records : list DNSRecord
}.

(** [DNSConfig{}] *)
Definition DNSConfig_zero : DNSConfig := mkDNSConfig "" "" [].

(** [StratoClient]; [J] is the type of the cookie jar behind [session]. *)
Record StratoClient (J : Type) : Type := mkStratoClient {
  api : string;
  identifier : string;
  password : string;
  order : string;
  domain : string;
  cID : string;
  session : http_Client J;
  sessionID : string
}.
Arguments mkStratoClient {J} _ _ _ _ _ _ _ _.
Arguments api {J} _.
Arguments identifier {J} _.
Arguments password {J} _.
Arguments order {J} _.
Arguments domain {J} _.
Arguments cID {J} _.
Arguments session {J} _.
Arguments sessionID {J} _.

(** ** State: the client the receiver pointer [c] points to, the world, and
    the requests handed to the transport so far *)
Record State (J W : Type) : Type := mkState {
  receiver : StratoClient J;
  world : W;
  sent : list Request
}.
Arguments mkState {J W} _ _ _.
Arguments receiver {J W} _.
Arguments world {J W} _.
Arguments sent {J W} _.

(** the two types at the libraries in use *)
Abbreviation Client := (StratoClient CookieJar).
Abbreviation St := (State CookieJar World).

Section Client.
Context {E : GoEnv}.

(** [http.NewRequest(method, url, body)] with method "GET" or "POST": fails
    exactly when the URL does not parse. *)
Definition http_NewRequest (method url : string) (body : option string) : result Request :=
  match url_Parse url with
  | Err e => Err e
  | Ok _ => Ok (mkRequest method url [] body)
  end.

(** [htmlquery.SelectAttr(n, name)]; a nil node has no attributes. *)
Definition htmlquery_SelectAttr (n : option Node) (name : string) : string :=
  match n with
  | None => ""
  | Some n => Node_attr n name
  end.

(** ** The monad of the methods *)

Definition M (A : Type) : Type := St -> A * St.

Definition ret {A} (a : A) : M A := fun s => (a, s).

Definition bind {A B} (m : M A) (k : A -> M B) : M B :=
  fun s => let '(a, s') := m s in k a s'.

Notation "'do' x <~ m ;; k" := (bind m (fun x => k))
  (at level 10, x name, m at level 99, k at level 200).

(** read the receiver *)
Definition this : M Client := fun s => (receiver s, s).

(** [c.sessionID = v] *)
Definition set_sessionID (v : string) : M unit := fun s =>
  let c := receiver s in
  (tt, mkState (mkStratoClient (api c) (identifier c) (password c) (order c)
                  (domain c) (cID c) (session c) v)
         (world s) (sent s)).

(** [c.cID = v] *)
Definition set_cID (v : string) : M unit := fun s =>
  let c := receiver s in
  (tt, mkState (mkStratoClient (api c) (identifier c) (password c) (order c)
                  (domain c) v (session c) (sessionID c))
         (world s) (sent s)).

(** [c.session.Do(req)] *)
Definition session_Do (req : Request) : M (result (Response Payload)) := fun s =>
  let '(r, w) := http_Do (session (receiver s)) req (world s) in
  (r, mkState (receiver s) w (go_append (sent s) req)).

(** ** authenticate (lines 73-137) *)

Definition authenticate : M (option error) :=
  do c <~ this ;;
  match http_NewRequest "GET" (api c) None with
  | Err err => ret (Some err)
  | Ok req =>
  do r <~ session_Do req ;;
  match r with
  | Err err => ret (Some err)
  | Ok _ =>
  let form := [] in
  let form := go_append form ("identifier=" +:+ identifier c) in
  let form := go_append form ("passwd=" +:+ password c) in
  let form := go_append form "action_customer_login.x=Login" in
  let queryString := strings_Join form "&" in
  match http_NewRequest "POST" (api c) (Some queryString) with
  | Err err => ret (Some err)
  | Ok req =>
  let req := Request_Header_Set "Content-Type" "application/x-www-form-urlencoded" req in
  do r <~ session_Do req ;;
  match r with
  | Err err => ret (Some err)
  | Ok resp =>
  if StatusCode resp =? http_StatusFound then
    let location := Values_Get (Header resp) "Location" in
    match url_Parse location with
    | Err err => ret (Some err)
    | Ok parsedURL =>
        do _u <~ set_sessionID (Values_Get (URL_Query parsedURL) "sessionID") ;;
        do c <~ this ;;
        if (sessionID c =? "")%string
        then ret (Some (errors_New "sessionID not found in redirect URL"))
        else ret None
    end
  else if StatusCode resp =? http_StatusOK then
    ret (Some (errors_New "authentication failed"))
  else
    ret (Some (errors_New ("unexpected response status: " +:+ Status resp)))
  end end end end.

(** ** populatePackageID (lines 139-185) *)

(** the [for _, part := range parts] loop with its [break] *)
Fixpoint populatePackageID_scan (parts : list string) : M unit :=
  match parts with
  | [] => ret tt
  | part :: rest =>
      if strings_HasPrefix part "cID="
      then set_cID (strings_TrimPrefix part "cID=")
      else populatePackageID_scan rest
  end.

Definition populatePackageID : M (option error) :=
  do c <~ this ;;
  let getURL := api c +:+ "?sessionID=" +:+ sessionID c +:+ "&cID=0"
                +:+ "&node=kds_CustomerEntryPage" in
  match http_NewRequest "GET" getURL None with
  | Err _ => ret None
  | Ok req =>
  do r <~ session_Do req ;;
  match r with
  | Err _ => ret None
  | Ok resp =>
  match htmlquery_Parse (Body resp) with
  | Err err => ret (Some err)
  | Ok doc =>
  match htmlquery_FindOne doc ("//div[@data-pkg-name-order='" +:+ order c +:+ "']") with
  | None => ret (Some (errors_New "failed to find order"))
  | Some div =>
  match htmlquery_FindOne div ".//a" with
  | None => ret (Some (errors_New "failed to find link"))
  | Some linkNode =>
  let link := htmlquery_SelectAttr (Some linkNode) "href" in
  if (link =? "")%string then ret (Some (errors_New "failed to find link value"))
  else
    let parts := strings_Split link "&" in
    do _u <~ populatePackageID_scan parts ;;
    do c <~ this ;;
    if (cID c =? "")%string
    then ret (Some (errors_New "failed to find cID in link"))
    else ret None
  end end end end end.

(** ** GetDNSConfiguration (lines 188-261) *)

(** body of the [for _, recordNode := range recordNodes] loop *)
Definition GetDNSConfiguration_row (records : list DNSRecord) (recordNode : Node)
  : list DNSRecord :=
  let recordTypeNode :=
    htmlquery_FindOne recordNode ".//select[@name='type']/option[@selected]" in
  let recordPrefixNode := htmlquery_FindOne recordNode ".//input[@name='prefix']" in
  let recordValueNode := htmlquery_FindOne recordNode ".//textarea[@name='value']" in
  match recordTypeNode, recordValueNode with
  | Some _, Some valueNode =>
      let record :=
        {| Type_ := htmlquery_SelectAttr recordTypeNode "value";
           Prefix := htmlquery_SelectAttr recordPrefixNode "value";
           Value := htmlquery_InnerText valueNode |} in
      go_append records record
  | _, _ => records
  end.

Definition GetDNSConfiguration : M (DNSConfig * option error) :=
  do c <~ this ;;
  let getURL := api c +:+ "?sessionID=" +:+ sessionID c +:+ "&cID=" +:+ cID c
                +:+ "&node=ManageDomains" +:+ "&action_show_txt_records"
                +:+ "&vhost=" +:+ domain c in
  match http_NewRequest "GET" getURL None with
  | Err err => ret (DNSConfig_zero, Some err)
  | Ok req =>
  do r <~ session_Do req ;;
  match r with
  | Err err => ret (DNSConfig_zero, Some err)
  | Ok resp =>
  if negb (StatusCode resp =? http_StatusOK)
  then ret (DNSConfig_zero, Some (errors_New "failed to fetch TXT records"))
  else
  match htmlquery_Parse (Body resp) with
  | Err err => ret (DNSConfig_zero, Some err)
  | Ok doc =>
  match htmlquery_FindOne doc "//form[@id='jss_txt_record_form']" with
  | None => ret (DNSConfig_zero, Some (errors_New "failed to find form element"))
  | Some form =>
  match htmlquery_FindOne form "//input[@name='dmarc_type' and @checked]" with
  | None => ret (DNSConfig_zero, Some (errors_New "failed to find dmarc_type element"))
  | Some dmarcNode =>
  let dmarcType := htmlquery_SelectAttr (Some dmarcNode) "value" in
  if (dmarcType =? "")%string
  then ret (DNSConfig_zero, Some (errors_New "failed to find dmarc_type value"))
  else
  match htmlquery_FindOne form "//input[@name='spf_type' and @checked]" with
  | None => ret (DNSConfig_zero, Some (errors_New "failed to find spf_type element"))
  | Some spfNode =>
  let spfType := htmlquery_SelectAttr (Some spfNode) "value" in
  if (spfType =? "")%string
  then ret (DNSConfig_zero, Some (errors_New "failed to find spf_type value"))
  else
  let recordNodes :=
    htmlquery_Find form
      "//div[@id='jss_txt_container']/div[contains(@class, 'txt-record-tmpl')]" in
  let records := fold_left GetDNSConfiguration_row recordNodes [] in
  ret ({| DMARCType := dmarcType; SPFType := spfType; Records := records |}, None)
  end end end end end end.

(** ** SetDNSConfiguration (lines 263-307) *)

(** the caption of the submit button, byte for byte as in the source file *)
Definition submit_caption : string :=
  "Einstellung " +:+
  String "195"%char (String "131"%char (String "194"%char (String "188"%char
    "bernehmen"))).

(** body of the [for _, record := range config.Records] loop *)
Definition SetDNSConfiguration_row (form : list string) (record : DNSRecord)
  : list string :=
  let form := go_append form ("type=" +:+ Type_ record) in
  let form := go_append form ("prefix=" +:+ Prefix record) in
  let form := go_append form ("value=" +:+ Value record) in
  form.

(** lines 269-281: the fields of the form *)
Definition SetDNSConfiguration_form (c : Client) (config : DNSConfig)
  : list string :=
  let form := [] in
  let form := go_append form ("sessionID=" +:+ sessionID c) in
  let form := go_append form "cID=1" in
  let form := go_append form "node=ManageDomains" in
  let form := go_append form ("vhost=" +:+ domain c) in
  let form := go_append form ("dmarc_type=" +:+ DMARCType config) in
  let form := go_append form ("spf_type=" +:+ SPFType config) in
  let form := fold_left SetDNSConfiguration_row (Records config) form in
  let form := go_append form ("action_change_txt_records=" +:+ submit_caption) in
  form.

Definition SetDNSConfiguration (config : DNSConfig) : M (option error) :=
  do c <~ this ;;
  let setURL := api c +:+ "?sessionID=" +:+ sessionID c +:+ "&cID=" +:+ cID c
                +:+ "&action_change_txt_records" in
  let form := SetDNSConfiguration_form c config in
  let queryString := strings_Join form "&" in
  match http_NewRequest "POST" setURL (Some queryString) with
  | Err err => ret (Some err)
  | Ok req =>
  let req := Request_Header_Set "Content-Type" "application/x-www-form-urlencoded" req in
  do r <~ session_Do req ;;
  match r with
  | Err err => ret (Some err)
  | Ok resp =>
  if StatusCode resp =? http_StatusFound then ret None
  else if StatusCode resp =? http_StatusOK then ret (Some (errors_New "update failed"))
  else ret (Some (errors_New ("unexpected response status: " +:+ Status resp)))
  end end.

(** ** NewStratoClient (lines 39-70) *)

(** What the caller gets: the client or the error, the world as the
    constructor left it and the requests it sent. *)
Definition NewStratoClient (api identifier password order domain : string) (w : World)
  : result Client * World * list Request :=
  match cookiejar_New with
  | Err err => (Err err, w, [])
  | Ok jar =>
  let client :=
    {| api := api; identifier := identifier; password := password;
       order := order; domain := domain; cID := "";
       session := {| Jar := jar;
                     CheckRedirect := fun _ _ => Some http_ErrUseLastResponse |};
       sessionID := "" |} in
  let s := mkState client w [] in
  match authenticate s with
  | (Some err, s) => (Err err, world s, sent s)
  | (None, s) =>
  match populatePackageID s with
  | (Some err, s) => (Err err, world s, sent s)
  | (None, s) => (Ok (receiver s), world s, sent s)
  end end end.

(** ** What an operation got from the peer

    The properties below speak about the response an operation classifies or
    the page it reads.  These functions replay the requests of the operation
    up to that point and return the response or the parsed page together with
    the state reached; they are [None] when the exchange stops earlier. *)

(** lines 78-115: the answer to the login POST *)
Definition authenticate_reply (s : St) : option (Response Payload * St) :=
  let c := receiver s in
  match http_NewRequest "GET" (api c) None with
  | Err _ => None
  | Ok req =>
  match session_Do req s with
  | (Err _, _) => None
  | (Ok _, s) =>
  let queryString :=
    strings_Join ["identifier=" +:+ identifier c; "passwd=" +:+ password c;
                  "action_customer_login.x=Login"] "&" in
  match http_NewRequest "POST" (api c) (Some queryString) with
  | Err _ => None
  | Ok req =>
  match session_Do
          (Request_Header_Set "Content-Type" "application/x-www-form-urlencoded" req) s with
  | (Err _, _) => None
  | (Ok resp, s) => Some (resp, s)
  end end end end.

(** lines 140-158: the dashboard *)
Definition populatePackageID_page (s : St) : option (Node * St) :=
  let c := receiver s in
  let getURL := api c +:+ "?sessionID=" +:+ sessionID c +:+ "&cID=0"
                +:+ "&node=kds_CustomerEntryPage" in
  match http_NewRequest "GET" getURL None with
  | Err _ => None
  | Ok req =>
  match session_Do req s with
  | (Err _, _) => None
  | (Ok resp, s) =>
  match htmlquery_Parse (Body resp) with
  | Err _ => None
  | Ok doc => Some (doc, s)
  end end end.

(** lines 189-205: the answer to the reader's GET *)
Definition GetDNSConfiguration_reply (s : St) : option (Response Payload * St) :=
  let c := receiver s in
  let getURL := api c +:+ "?sessionID=" +:+ sessionID c +:+ "&cID=" +:+ cID c
                +:+ "&node=ManageDomains" +:+ "&action_show_txt_records"
                +:+ "&vhost=" +:+ domain c in
  match http_NewRequest "GET" getURL None with
  | Err _ => None
  | Ok req =>
  match session_Do req s with
  | (Err _, _) => None
  | (Ok resp, s) => Some (resp, s)
  end end.

(** lines 189-213: the record page *)
Definition GetDNSConfiguration_page (s : St) : option (Node * St) :=
  match GetDNSConfiguration_reply s with
  | None => None
  | Some (resp, s) =>
  if StatusCode resp =? http_StatusOK then
    match htmlquery_Parse (Body resp) with
    | Err _ => None
    | Ok doc => Some (doc, s)
    end
  else None
  end.

(** lines 264-296: the answer to the writer's POST *)
Definition SetDNSConfiguration_reply (config : DNSConfig) (s : St)
  : option (Response Payload * St) :=
  let c := receiver s in
  let setURL := api c +:+ "?sessionID=" +:+ sessionID c +:+ "&cID=" +:+ cID c
                +:+ "&action_change_txt_records" in
  let queryString := strings_Join (SetDNSConfiguration_form c config) "&" in
  match http_NewRequest "POST" setURL (Some queryString) with
  | Err _ => None
  | Ok req =>
  match session_Do
          (Request_Header_Set "Content-Type" "application/x-www-form-urlencoded" req) s with
  | (Err _, _) => None
  | (Ok resp, s) => Some (resp, s)
  end end.

(** ** What an operation does with it

    The rest of each operation, from the response or page on. *)

(** lines 117-136: the answer to the login POST, classified *)
Definition authenticate_answer (resp : Response Payload) : M (option error) :=
  if StatusCode resp =? http_StatusFound then
    let location := Values_Get (Header resp) "Location" in
    match url_Parse location with
    | Err err => ret (Some err)
    | Ok parsedURL =>
        do _u <~ set_sessionID (Values_Get (URL_Query parsedURL) "sessionID") ;;
        do c <~ this ;;
        if (sessionID c =? "")%string
        then ret (Some (errors_New "sessionID not found in redirect URL"))
        else ret None
    end
  else if StatusCode resp =? http_StatusOK then
    ret (Some (errors_New "authentication failed"))
  else
    ret (Some (errors_New ("unexpected response status: " +:+ Status resp))).

(** lines 160-184: the dashboard, searched for the package's link *)
Definition populatePackageID_found (order : string) (doc : Node) : M (option error) :=
  match htmlquery_FindOne doc ("//div[@data-pkg-name-order='" +:+ order +:+ "']") with
  | None => ret (Some (errors_New "failed to find order"))
  | Some div =>
  match htmlquery_FindOne div ".//a" with
  | None => ret (Some (errors_New "failed to find link"))
  | Some linkNode =>
  let link := htmlquery_SelectAttr (Some linkNode) "href" in
  if (link =? "")%string then ret (Some (errors_New "failed to find link value"))
  else
    let parts := strings_Split link "&" in
    do _u <~ populatePackageID_scan parts ;;
    do c <~ this ;;
    if (cID c =? "")%string
    then ret (Some (errors_New "failed to find cID in link"))
    else ret None
  end end.

(** the reader from the parsed page on: lines 216-260 *)
Definition GetDNSConfiguration_parsed (doc : Node) : DNSConfig * option error :=
  match htmlquery_FindOne doc "//form[@id='jss_txt_record_form']" with
  | None => (DNSConfig_zero, Some (errors_New "failed to find form element"))
  | Some form =>
  match htmlquery_FindOne form "//input[@name='dmarc_type' and @checked]" with
  | None => (DNSConfig_zero, Some (errors_New "failed to find dmarc_type element"))
  | Some dmarcNode =>
  if (Node_attr dmarcNode "value" =? "")%string
  then (DNSConfig_zero, Some (errors_New "failed to find dmarc_type value"))
  else
  match htmlquery_FindOne form "//input[@name='spf_type' and @checked]" with
  | None => (DNSConfig_zero, Some (errors_New "failed to find spf_type element"))
  | Some spfNode =>
  if (Node_attr spfNode "value" =? "")%string
  then (DNSConfig_zero, Some (errors_New "failed to find spf_type value"))
  else
    ({| DMARCType := Node_attr dmarcNode "value";
        SPFType := Node_attr spfNode "value";
        Records :=
          fold_left GetDNSConfiguration_row
            (htmlquery_Find form
               "//div[@id='jss_txt_container']/div[contains(@class, 'txt-record-tmpl')]")
            [] |}, None)
  end end end.

(** ** The fields the two forms are meant to carry *)

(** a form written out with no escaping at all *)
Definition raw_form (fields : list (string * string)) : string :=
  strings_Join (map (λ kv, kv.1 +:+ "=" +:+ kv.2) fields) "&".

Definition authenticate_fields (c : Client) : list (string * string) :=
  [("identifier", identifier c); ("passwd", password c);
   ("action_customer_login.x", "Login")].

Definition SetDNSConfiguration_fields (c : Client) (config : DNSConfig)
  : list (string * string) :=
  [("sessionID", sessionID c); ("cID", "1"); ("node", "ManageDomains");
   ("vhost", domain c); ("dmarc_type", DMARCType config);
   ("spf_type", SPFType config)]
  ++ flat_map (λ r, [("type", Type_ r); ("prefix", Prefix r); ("value", Value r)])
       (Records config)
  ++ [("action_change_txt_records", submit_caption)].

(** ** The reader's rows, as the specification describes them *)

Definition row_type (row : Node) : option Node :=
  htmlquery_FindOne row ".//select[@name='type']/option[@selected]".
Definition row_prefix (row : Node) : option Node :=
  htmlquery_FindOne row ".//input[@name='prefix']".
Definition row_value (row : Node) : option Node :=
  htmlquery_FindOne row ".//textarea[@name='value']".

(** a row has its selected type option and its value textarea *)
Definition row_complete (row : Node) : bool :=
  match row_type row, row_value row with
  | Some _, Some _ => true
  | _, _ => false
  end.

(** the record of a row *)
Definition row_record (row : Node) : DNSRecord :=
  {| Type_ := htmlquery_SelectAttr (row_type row) "value";
     Prefix := htmlquery_SelectAttr (row_prefix row) "value";
     Value := match row_value row with
              | Some v => htmlquery_InnerText v
              | None => ""
              end |}.

(** ** cmd/main.go

    The command-line program around the client.  The flags arrive parsed;
    [klog.Fatal] ends the program, which is the result [Fatal] here; the
    [klog.V(2)] lines and [printConfig] only log. *)

Record Flags : Type := mkFlags {
  flag_api : string;
  flag_identifier : string;
  flag_password : string;
  flag_order : string;
  flag_domain : string;
  flag_command : string;
  flag_type : string;
  flag_prefix : string;
  flag_value : string
}.

(** how [main] ends: it returns, or [klog.Fatal] stops it with a message *)
Inductive Exit : Type :=
  | Returned
  | Fatal (msg : string).

(** [err.Error()], as the verb [%v] prints it *)
Definition error_string (err : error) : string :=
  match err with
  | errors_New msg => msg
  | lib_error msg => msg
  end.

(** contains (lines 152-159) *)
Fixpoint contains (records : list DNSRecord) (record : DNSRecord) : bool :=
  match records with
  | [] => false
  | entry :: rest =>
      if (Type_ entry =? Type_ record)%string
         && (Prefix entry =? Prefix record)%string
         && (Value entry =? Value record)%string
      then true
      else contains rest record
  end.

(** the comparison of lines 112 and 154: all three fields agree *)
Definition same_record (a b : DNSRecord) : bool :=
  (Type_ a =? Type_ b)%string && (Prefix a =? Prefix b)%string
  && (Value a =? Value b)%string.

(** body of the loop of lines 111-115 *)
Definition main_remove_step (providedRecord : DNSRecord)
    (updatedRecords : list DNSRecord) (record : DNSRecord) : list DNSRecord :=
  if negb (Type_ record =? Type_ providedRecord)%string
     || negb (Prefix record =? Prefix providedRecord)%string
     || negb (Value record =? Value providedRecord)%string
  then go_append updatedRecords record
  else updatedRecords.

(** [config.Records = records] *)
Definition with_Records (config : DNSConfig) (records : list DNSRecord) : DNSConfig :=
  {| DMARCType := DMARCType config; SPFType := SPFType config; Records := records |}.

(** the flags [--type], [--prefix] and [--value] as a record (lines 55-59
    and 98-102) *)
Definition providedRecord (fl : Flags) : DNSRecord :=
  {| Type_ := flag_type fl; Prefix := flag_prefix fl; Value := flag_value fl |}.

(** case "list" (lines 37-43) *)
Definition main_list : M Exit :=
  do r <~ GetDNSConfiguration ;;
  match r with
  | (_, Some err) => ret (Fatal ("Failed to fetch DNS records: " +:+ error_string err))
  | (_, None) => ret Returned
  end.

(** case "add" (lines 45-87) *)
Definition main_add (fl : Flags) : M Exit :=
  if (flag_type fl =? "")%string
  then ret (Fatal "--type is required for add command") else
  if (flag_prefix fl =? "")%string
  then ret (Fatal "--prefix is required for add command") else
  if (flag_value fl =? "")%string
  then ret (Fatal "--value is required for add command") else
  do r <~ GetDNSConfiguration ;;
  match r with
  | (_, Some err) =>
      ret (Fatal ("Failed to fetch initial configuration: " +:+ error_string err))
  | (config, None) =>
  if contains (Records config) (providedRecord fl) then ret Returned else
  let config := with_Records config (go_append (Records config) (providedRecord fl)) in
  do e <~ SetDNSConfiguration config ;;
  match e with
  | Some err => ret (Fatal ("Failed to update DNS records: " +:+ error_string err))
  | None =>
  do r <~ GetDNSConfiguration ;;
  match r with
  | (_, Some err) =>
      ret (Fatal ("Failed to fetch updated configuration: " +:+ error_string err))
  | (config, None) =>
  if negb (contains (Records config) (providedRecord fl))
  then ret (Fatal "Failed to add new record")
  else ret Returned
  end end end.

(** case "remove" (lines 88-136) *)
Definition main_remove (fl : Flags) : M Exit :=
  if (flag_type fl =? "")%string
  then ret (Fatal "--type is required for add command") else
  if (flag_prefix fl =? "")%string
  then ret (Fatal "--prefix is required for add command") else
  if (flag_value fl =? "")%string
  then ret (Fatal "--value is required for add command") else
  do r <~ GetDNSConfiguration ;;
  match r with
  | (_, Some err) =>
      ret (Fatal ("Failed to fetch initial configuration: " +:+ error_string err))
  | (config, None) =>
  let updatedRecords :=
    fold_left (main_remove_step (providedRecord fl)) (Records config) [] in
  if (length updatedRecords =? length (Records config))%nat then ret Returned else
  let config := with_Records config updatedRecords in
  do e <~ SetDNSConfiguration config ;;
  match e with
  | Some err =>
      ret (Fatal ("Failed to update DNS configuration: " +:+ error_string err))
  | None =>
  do r <~ GetDNSConfiguration ;;
  match r with
  | (_, Some err) =>
      ret (Fatal ("Failed to fetch DNS configuration: " +:+ error_string err))
  | (config, None) =>
  if contains (Records config) (providedRecord fl)
  then ret (Fatal "Failed to remove record")
  else ret Returned
  end end end.

(** the [switch] of lines 36-139 *)
Definition main_command (fl : Flags) : M Exit :=
  if (flag_command fl =? "list")%string then main_list
  else if (flag_command fl =? "add")%string then main_add fl
  else if (flag_command fl =? "remove")%string then main_remove fl
  else ret (Fatal ("Invalid command: " +:+ flag_command fl
                   +:+ ". Use add, remove, or list")).

(** main (lines 10-141): how it ends, the world it leaves and the requests
    it sent *)
Definition main (fl : Flags) (w : World) : Exit * World * list Request :=
  if (flag_identifier fl =? "")%string || (flag_password fl =? "")%string
     || (flag_order fl =? "")%string || (flag_domain fl =? "")%string
     || (flag_command fl =? "")%string
  then (Fatal "All flags --identifier, --password, --order, --domain, and --command are required",
        w, [])
  else
  match NewStratoClient (flag_api fl) (flag_identifier fl) (flag_password fl)
          (flag_order fl) (flag_domain fl) w with
  | (Err err, w, reqs) =>
      (Fatal ("Failed to create Strato client: " +:+ error_string err), w, reqs)
  | (Ok client, w, reqs) =>
      let '(e, s) := main_command fl (mkState client w reqs) in
      (e, world s, sent s)
  end.

(** ** Bodies that survive without escaping *)

(** no byte of [s] is [c] *)
Fixpoint string_lacks (c : ascii) (s : string) : bool :=
  match s with
  | EmptyString => true
  | String c' s' => negb (Ascii.eqb c' c) && string_lacks c s'
  end.

(** a value that reads back as it was written: no '&', '%' or '+' in it *)
Definition plain_value (s : string) : bool :=
  string_lacks "&" s && string_lacks "%" s && string_lacks "+" s.

(** a key that reads back as it was written: a plain value without '=' *)
Definition plain_key (s : string) : bool :=
  plain_value s && string_lacks "=" s.

(** ** Requests that write *)

(** the requests of a trace that carry the method POST *)
Definition posts (reqs : list Request) : list Request :=
  List.filter (λ req, (Method req =? "POST")%string) reqs.

(** ** Requests that stay on the endpoint *)

(** the client talks to [a] and has so far sent to [a] only *)
Definition on_endpoint (a : string) (s : St) : Prop :=
  api (receiver s) = a
  ∧ forallb (λ req, strings_HasPrefix (ReqURL req) a) (sent s) = true.

End Client.

(** ** Sim: one implementation of the libraries

    A server that answers from a script, pages that arrive as DOM trees, and
    the nine XPath expressions of the client evaluated on those trees.  It
    serves to run the client on concrete exchanges. *)

Module Sim.

Inductive Dom : Type :=
  | Text (data : string)
  | Element (tag : string) (attrs : list (string * string)) (children : list Dom).

Definition children (n : Dom) : list Dom :=
  match n with
  | Text _ => []
  | Element _ _ cs => cs
  end.

(** proper descendants, in document order *)
Fixpoint descendants (n : Dom) : list Dom :=
  match n with
  | Text _ => []
  | Element _ _ cs =>
      (fix go (l : list Dom) : list Dom :=
         match l with
         | [] => []
         | c :: l' => (c :: descendants c) ++ go l'
         end) cs
  end.

Fixpoint InnerText (n : Dom) : string :=
  match n with
  | Text data => data
  | Element _ _ cs =>
      (fix go (l : list Dom) : string :=
         match l with
         | [] => ""
         | c :: l' => InnerText c +:+ go l'
         end) cs
  end.

Fixpoint attr_find (attrs : list (string * string)) (name : string) : option string :=
  match attrs with
  | [] => None
  | (k, v) :: rest => if (k =? name)%string then Some v else attr_find rest name
  end.

Definition attr_of (n : Dom) (name : string) : option string :=
  match n with
  | Text _ => None
  | Element _ attrs _ => attr_find attrs name
  end.

Definition attr (n : Dom) (name : string) : string := default "" (attr_of n name).

Definition is_tag (tag : string) (n : Dom) : bool :=
  match n with
  | Text _ => false
  | Element t _ _ => (t =? tag)%string
  end.

Definition attr_is (name value : string) (n : Dom) : bool :=
  match attr_of n name with
  | Some v => (v =? value)%string
  | None => false
  end.

Definition has_attr (name : string) (n : Dom) : bool :=
  match attr_of n name with
  | Some _ => true
  | None => false
  end.

Fixpoint contains (s sub : string) : bool :=
  String.prefix sub s ||
  match s with
  | EmptyString => false
  | String _ s' => contains s' sub
  end.

Definition attr_contains (name sub : string) (n : Dom) : bool :=
  match attr_of n name with
  | Some v => contains v sub
  | None => false
  end.

(** [Some p] when [s = p +:+ suffix] *)
Fixpoint strip_suffix (s suffix : string) : option string :=
  if (s =? suffix)%string then Some ""
  else match s with
       | EmptyString => None
       | String c s' => String c <$> strip_suffix s' suffix
       end.

Definition Find (top : Dom) (expr : string) : list Dom :=
  let within := descendants top in
  if (expr =? ".//a")%string then
    filter (λ n, is_tag "a" n = true) within
  else if (expr =? "//form[@id='jss_txt_record_form']")%string then
    filter (λ n, is_tag "form" n && attr_is "id" "jss_txt_record_form" n = true) within
  else if (expr =? "//input[@name='dmarc_type' and @checked]")%string then
    filter (λ n, is_tag "input" n && attr_is "name" "dmarc_type" n
                 && has_attr "checked" n = true) within
  else if (expr =? "//input[@name='spf_type' and @checked]")%string then
    filter (λ n, is_tag "input" n && attr_is "name" "spf_type" n
                 && has_attr "checked" n = true) within
  else if (expr =? "//div[@id='jss_txt_container']/div[contains(@class, 'txt-record-tmpl')]")%string then
    flat_map
      (λ d, filter (λ n, is_tag "div" n && attr_contains "class" "txt-record-tmpl" n = true)
              (children d))
      (filter (λ n, is_tag "div" n && attr_is "id" "jss_txt_container" n = true) within)
  else if (expr =? ".//select[@name='type']/option[@selected]")%string then
    flat_map
      (λ d, filter (λ n, is_tag "option" n && has_attr "selected" n = true) (children d))
      (filter (λ n, is_tag "select" n && attr_is "name" "type" n = true) within)
  else if (expr =? ".//input[@name='prefix']")%string then
    filter (λ n, is_tag "input" n && attr_is "name" "prefix" n = true) within
  else if (expr =? ".//textarea[@name='value']")%string then
    filter (λ n, is_tag "textarea" n && attr_is "name" "value" n = true) within
  else if strings_HasPrefix expr "//div[@data-pkg-name-order='" then
    match strip_suffix (strings_TrimPrefix expr "//div[@data-pkg-name-order='") "']" with
    | Some label =>
        filter (λ n, is_tag "div" n && attr_is "data-pkg-name-order" label n = true) within
    | None => []
    end
  else [].

Definition FindOne (top : Dom) (expr : string) : option Dom := head (Find top expr).

(** *** URLs *)

Record Url : Type := mkUrl { Path : string; RawQuery : string }.

Fixpoint has_ctl (s : string) : bool :=
  match s with
  | EmptyString => false
  | String c s' => (nat_of_ascii c <? 32)%nat || (nat_of_ascii c =? 127)%nat || has_ctl s'
  end.

Definition Parse_url (s : string) : result Url :=
  if has_ctl s then Err (lib_error "net/url: invalid control character in URL")
  else let '(rest, _) := strings_Cut s "#" in
       let '(path, query) := strings_Cut rest "?" in
       Ok (mkUrl path query).

(** one step of the loop of [url.ParseQuery], which drops what it cannot read *)
Definition Query_pair (m : Values) (piece : string) : Values :=
  if contains piece ";" then m
  else if (piece =? "")%string then m
  else let '(k, v) := strings_Cut piece "=" in
       match url_QueryUnescape k, url_QueryUnescape v with
       | Some k, Some v => Values_Add k v m
       | _, _ => m
       end.

Definition Query (u : Url) : Values :=
  fold_left Query_pair (strings_Split (RawQuery u) "&") [].

(** *** The transport: the next entry of the script answers the request *)

Definition Script : Type := list (result (Response (result Dom))).

Definition Do (c : http_Client unit) (req : Request) (w : Script)
  : result (Response (result Dom)) * Script :=
  match w with
  | [] => (Err (lib_error "dial tcp: connection refused"), [])
  | r :: w' => (r, w')
  end.

#[export] Instance env : GoEnv := {|
  World := Script;
  CookieJar := unit;
  URL := Url;
  Payload := result Dom;
  Node := Dom;
  cookiejar_New := Ok tt;
  url_Parse := Parse_url;
  URL_Query := Query;
  http_Do := Do;
  htmlquery_Parse := λ p, p;
  htmlquery_FindOne := FindOne;
  htmlquery_Find := Find;
  htmlquery_InnerText := InnerText;
  Node_attr := attr
|}.

(** a redirect to [location] *)
Definition found (location : string) : Response (result Dom) :=
  mkResponse "302 Found" 302 [("Location", [location])] (Ok (Text "")).

(** a page *)
Definition page (doc : Dom) : Response (result Dom) :=
  mkResponse "200 OK" 200 [] (Ok doc).

(** a dashboard with one package *)
Definition link (href : string) : Dom := Element "a" [("href", href)] [Text "manage"].

Definition package (label href : string) : Dom :=
  Element "div" [("data-pkg-name-order", label)]
    [Element "span" [] [Text "package"]; link href].

Definition dashboard (label href : string) : Dom :=
  Element "html" [] [Element "body" [] [package label href]].

(** one row of the record form *)
Definition row (type prefix value : string) : Dom :=
  Element "div" [("class", "row txt-record-tmpl")]
    [Element "select" [("name", "type")]
       [Element "option" [("value", "CNAME")] [];
        Element "option" [("value", type); ("selected", "selected")] []];
     Element "input" [("name", "prefix"); ("value", prefix)] [];
     Element "textarea" [("name", "value")] [Text value]].

(** a row without its textarea *)
Definition row_no_value (type prefix : string) : Dom :=
  Element "div" [("class", "row txt-record-tmpl")]
    [Element "select" [("name", "type")]
       [Element "option" [("value", type); ("selected", "selected")] []];
     Element "input" [("name", "prefix"); ("value", prefix)] []].

(** a row without its prefix input *)
Definition row_no_prefix (type value : string) : Dom :=
  Element "div" [("class", "txt-record-tmpl")]
    [Element "select" [("name", "type")]
       [Element "option" [("value", type); ("selected", "selected")] []];
     Element "textarea" [("name", "value")] [Text value]].

(** the record page *)
Definition records_page (dmarc spf : string) (rows : list Dom) : Dom :=
  Element "html" [] [Element "body" []
    [Element "form" [("id", "jss_txt_record_form")]
       [Element "input" [("name", "dmarc_type"); ("value", "none")] [];
        Element "input" [("name", "dmarc_type"); ("value", dmarc); ("checked", "")] [];
        Element "input" [("name", "spf_type"); ("value", spf); ("checked", "")] [];
        Element "div" [("id", "jss_txt_container")] rows]]].

(** a client as the constructor leaves it *)
Definition client_of (identifier password domain sessionID cID : string)
  : Client :=
  {| api := "https://host/apps"; identifier := identifier; password := password;
     order := "ORDER1"; domain := domain; cID := cID;
     session := {| Jar := tt; CheckRedirect := λ _ _, Some http_ErrUseLastResponse |};
     sessionID := sessionID |}.

Definition a_client (sessionID cID : string) : Client :=
  client_of "user" "secret" "example.org" sessionID cID.

(** a state in which nothing was sent yet *)
Definition fresh (c : Client) (w : Script) : St := mkState c w [].

(** *** Exchanges *)

Definition login_page : Response (result Dom) := page (Text "login").

(** a login that the server accepts *)
Definition login_ok : St :=
  fresh (a_client "" "") [Ok login_page; Ok (found "/x?sessionID=abc123&foo=bar")].

(** a redirect whose [sessionID] parameter is there and empty *)
Definition login_empty_token : St :=
  fresh (a_client "" "") [Ok login_page; Ok (found "/x?sessionID=")].

(** a dashboard whose link carries [cID=987] *)
Definition dashboard_ok : St :=
  fresh (a_client "S1" "")
    [Ok (page (dashboard "ORDER1" "https://host/x?sessionID=S1&cID=987&node=kds"))].

(** a dashboard whose link carries [cID=] with nothing after it *)
Definition dashboard_empty_cID : St :=
  fresh (a_client "S1" "")
    [Ok (page (dashboard "ORDER1" "https://host/x?sessionID=S1&cID="))].

Definition three_rows : Dom :=
  records_page "quarantine" "strict"
    [row "TXT" "@" "hello"; row_no_value "TXT" "x";
     row_no_prefix "TXT-SPF" "v=spf1 -all"].

(** a record page answered with 200 *)
Definition read_ok : St := fresh (a_client "S1" "42") [Ok (page three_rows)].

(** the same page answered with 203 *)
Definition read_203 : St :=
  fresh (a_client "S1" "42")
    [Ok (mkResponse "203 Non-Authoritative Information" 203 [] (Ok three_rows))].

(** a write that the server accepts *)
Definition write_ok : St :=
  fresh (a_client "S1" "42") [Ok (found "https://host/x?node=ManageDomains")].

Definition one_record : DNSConfig :=
  mkDNSConfig "quarantine" "strict" [mkDNSRecord "TXT" "@" "hello"].

(** a server that accepts the login and then stops answering *)
Definition login_then_silence : Script :=
  [Ok login_page; Ok (found "https://host/x?sessionID=S1")].

(** a password and a record value with form metacharacters *)
Definition tricky_client : Client :=
  client_of "user" "p&admin=1" "example.org" "S1" "42".

Definition tricky_record : DNSConfig :=
  mkDNSConfig "none" "none" [mkDNSRecord "TXT" "_dmarc" "v=DMARC1&p=none"].

Definition tricky_login : St :=
  fresh tricky_client [Ok login_page; Ok (found "/x?sessionID=S1")].

Definition tricky_write : St :=
  fresh (a_client "S1" "42") [Ok (found "https://host/x?node=ManageDomains")].

(** *** Runs of the command-line tool *)

(** a server that accepts the login and shows the dashboard *)
Definition constructor_ok : Script :=
  login_then_silence
  ++ [Ok (page (dashboard "ORDER1" "https://host/x?sessionID=S1&cID=42&node=kds"))].

Definition flags (command type prefix value : string) : Flags :=
  mkFlags "https://host/apps" "user" "secret" "ORDER1" "example.org"
    command type prefix value.

Definition one_row : Dom :=
  records_page "quarantine" "strict" [row "TXT" "@" "hello"].

Definition two_rows : Dom :=
  records_page "quarantine" "strict"
    [row "TXT" "@" "hello"; row "TXT" "_acme" "token"].

(** the record page, an accepted write, the page with one more row *)
Definition add_run : St :=
  fresh (a_client "S1" "42")
    [Ok (page one_row); Ok (found "https://host/x?node=ManageDomains");
     Ok (page two_rows)].

(** the record page, an accepted write, the page with one row less *)
Definition remove_run : St :=
  fresh (a_client "S1" "42")
    [Ok (page two_rows); Ok (found "https://host/x?node=ManageDomains");
     Ok (page one_row)].

End Sim.

(** * Properties *)

Section Properties.
Context {E : GoEnv}.

(** case analysis on the next [match] or [if] of the goal *)
Ltac next_case :=
  match goal with
  | |- context [match ?x with _ => _ end] =>
      lazymatch x with
      | context [match _ with _ => _ end] => fail
      | _ => destruct x eqn:?
      end
  end.

Ltac run := unfold bind, ret, this, session_Do, set_sessionID, set_cID; cbn.

(** ** The fields of the write form *)

Lemma SetDNSConfiguration_rows (records : list DNSRecord) (form : list string) :
  fold_left SetDNSConfiguration_row records form
  = form ++ flat_map (λ r, ["type=" +:+ Type_ r; "prefix=" +:+ Prefix r;
                             "value=" +:+ Value r]) records.
Proof.
  revert form. induction records as [|r records IH]; intros form; cbn.
  - now rewrite app_nil_r.
  - rewrite IH. unfold SetDNSConfiguration_row, go_append.
    now rewrite <- !app_assoc.
Qed.

Lemma SetDNSConfiguration_form_fields (c : Client) (config : DNSConfig) :
  SetDNSConfiguration_form c config
  = ["sessionID=" +:+ sessionID c; "cID=1"; "node=ManageDomains";
     "vhost=" +:+ domain c; "dmarc_type=" +:+ DMARCType config;
     "spf_type=" +:+ SPFType config]
    ++ flat_map (λ r, ["type=" +:+ Type_ r; "prefix=" +:+ Prefix r;
                       "value=" +:+ Value r]) (Records config)
    ++ ["action_change_txt_records=" +:+ submit_caption].
Proof.
  unfold SetDNSConfiguration_form, go_append.
  rewrite SetDNSConfiguration_rows. rewrite <- !app_assoc. reflexivity.
Qed.

(** the one request of [SetDNSConfiguration] *)
Lemma SetDNSConfiguration_sent (config : DNSConfig) (s : St) :
  let c := receiver s in
  let setURL := api c +:+ "?sessionID=" +:+ sessionID c +:+ "&cID=" +:+ cID c
                +:+ "&action_change_txt_records" in
  sent (snd (SetDNSConfiguration config s))
  = sent s ++
    match url_Parse setURL with
    | Ok _ => [mkRequest "POST" setURL
                 [("Content-Type", ["application/x-www-form-urlencoded"])]
                 (Some (strings_Join (SetDNSConfiguration_form c config) "&"))]
    | Err _ => []
    end.
Proof.
  intros c setURL.
  unfold SetDNSConfiguration, bind, this, ret, session_Do.
  fold c. fold setURL. clearbody setURL.
  generalize (SetDNSConfiguration_form c config). intros fields.
  unfold http_NewRequest.
  destruct (url_Parse setURL) eqn:Hu.
  - unfold Request_Header_Set; simpl.
    destruct (http_Do _ _ _) as [[resp|err] w]; simpl.
    + repeat next_case; reflexivity.
    + reflexivity.
  - simpl. now rewrite app_nil_r.
Qed.

(** C3. The POST body of [SetDNSConfiguration] is the '&'-join of, in this
    order: the session token, the literal [cID=1] (whatever the client's
    resolved [cID] is), the manage-domains selector, the domain, [dmarc_type],
    [spf_type], then [type], [prefix], [value] for each record in sequence
    order, and last the submit field with the button caption; and that body is
    what the one request of the call carries. *)
Theorem SetDNSConfiguration_body (config : DNSConfig) (s : St) :
  let c := receiver s in
  let fields :=
    ["sessionID=" +:+ sessionID c; "cID=1"; "node=ManageDomains";
     "vhost=" +:+ domain c; "dmarc_type=" +:+ DMARCType config;
     "spf_type=" +:+ SPFType config]
    ++ flat_map (λ r, ["type=" +:+ Type_ r; "prefix=" +:+ Prefix r;
                       "value=" +:+ Value r]) (Records config)
    ++ ["action_change_txt_records=" +:+ submit_caption] in
  let setURL := api c +:+ "?sessionID=" +:+ sessionID c +:+ "&cID=" +:+ cID c
                +:+ "&action_change_txt_records" in
  SetDNSConfiguration_form c config = fields
  ∧ sent (snd (SetDNSConfiguration config s))
    = sent s ++
      match url_Parse setURL with
      | Ok _ => [mkRequest "POST" setURL
                   [("Content-Type", ["application/x-www-form-urlencoded"])]
                   (Some (strings_Join fields "&"))]
      | Err _ => []
      end.
Proof.
  intros c fields setURL.
  split; [apply SetDNSConfiguration_form_fields|].
  unfold fields. rewrite <- SetDNSConfiguration_form_fields.
  apply SetDNSConfiguration_sent.
Qed.

(** ** The client is read-only after construction *)

(** C10. [GetDNSConfiguration] and [SetDNSConfiguration] leave every field of
    the client as it was, whatever the peer answers. *)
Theorem read_write_keep_client (config : DNSConfig) (s : St) :
  receiver (snd (GetDNSConfiguration s)) = receiver s
  ∧ receiver (snd (SetDNSConfiguration config s)) = receiver s.
Proof.
  split.
  - unfold GetDNSConfiguration. run. repeat (next_case; cbn); reflexivity.
  - unfold SetDNSConfiguration. run. repeat (next_case; cbn); reflexivity.
Qed.

(** ** The writer's answer *)

Lemma SetDNSConfiguration_after_reply (config : DNSConfig) (s s1 : St)
    (resp : Response Payload) :
  SetDNSConfiguration_reply config s = Some (resp, s1) →
  SetDNSConfiguration config s
  = (if StatusCode resp =? http_StatusFound then None
     else if StatusCode resp =? http_StatusOK then Some (errors_New "update failed")
     else Some (errors_New ("unexpected response status: " +:+ Status resp)), s1).
Proof.
  unfold SetDNSConfiguration_reply, SetDNSConfiguration, bind, this, ret.
  destruct (http_NewRequest _ _ _) as [req|e]; [|discriminate].
  destruct (session_Do _ s) as [[resp'|e] s'] eqn:HDo; [|discriminate].
  intros [= -> ->]. repeat next_case; reflexivity.
Qed.

(** C7. Whatever the answer to the write POST carries, [SetDNSConfiguration]
    returns nil on status 302, the rejection error on status 200 and the
    unexpected-status error otherwise; the POST is the only request of the
    call, so nothing is fetched from the redirect target. *)
Theorem SetDNSConfiguration_classifies (config : DNSConfig) (s s1 : St)
    (resp : Response Payload)
    (Hreply : SetDNSConfiguration_reply config s = Some (resp, s1)) :
  (StatusCode resp = 302 → SetDNSConfiguration config s = (None, s1))
  ∧ (StatusCode resp = 200 →
     SetDNSConfiguration config s = (Some (errors_New "update failed"), s1))
  ∧ (StatusCode resp ≠ 302 → StatusCode resp ≠ 200 →
     SetDNSConfiguration config s
     = (Some (errors_New ("unexpected response status: " +:+ Status resp)), s1))
  ∧ ∃ req, Method req = "POST"
           ∧ sent s1 = sent s ++ [req]
           ∧ receiver s1 = receiver s
           ∧ http_Do (session (receiver s)) req (world s) = (Ok resp, world s1).
Proof.
  rewrite (SetDNSConfiguration_after_reply _ _ _ _ Hreply).
  unfold http_StatusFound, http_StatusOK.
  split; [|split; [|split]].
  - intros ->. reflexivity.
  - intros ->. reflexivity.
  - intros H1 H2.
    destruct (Z.eqb_spec (StatusCode resp) 302); [contradiction|].
    destruct (Z.eqb_spec (StatusCode resp) 200); [contradiction|]. reflexivity.
  - revert Hreply. unfold SetDNSConfiguration_reply, http_NewRequest, session_Do.
    destruct (url_Parse _); [|discriminate].
    match goal with |- context [http_Do ?c ?r ?w] =>
      destruct (http_Do c r w) as [[resp'|e] w'] eqn:HDo; [|discriminate];
      intros [= -> <-]; exists r end.
    cbn. auto.
Qed.

(** ** The reader's answer *)

Lemma GetDNSConfiguration_after_reply (s s1 : St) (resp : Response Payload) :
  GetDNSConfiguration_reply s = Some (resp, s1) →
  StatusCode resp ≠ 200 →
  GetDNSConfiguration s
  = ((DNSConfig_zero, Some (errors_New "failed to fetch TXT records")), s1).
Proof.
  unfold GetDNSConfiguration_reply, GetDNSConfiguration, bind, this, ret.
  destruct (http_NewRequest _ _ _) as [req|e]; [|discriminate].
  destruct (session_Do _ s) as [[resp'|e] s'] eqn:HDo; [|discriminate].
  intros [= -> ->] Hne. unfold http_StatusOK.
  destruct (Z.eqb_spec (StatusCode resp) 200); [contradiction|]. reflexivity.
Qed.

Lemma GetDNSConfiguration_parse_error (s s1 : St) (resp : Response Payload)
    (e : error) :
  GetDNSConfiguration_reply s = Some (resp, s1) →
  StatusCode resp = 200 →
  htmlquery_Parse (Body resp) = Err e →
  GetDNSConfiguration s = ((DNSConfig_zero, Some e), s1).
Proof.
  unfold GetDNSConfiguration_reply, GetDNSConfiguration, bind, this, ret.
  destruct (http_NewRequest _ _ _) as [req|e']; [|discriminate].
  destruct (session_Do _ s) as [[resp'|e'] s'] eqn:HDo; [|discriminate].
  intros [= -> ->] -> ->. reflexivity.
Qed.

Lemma GetDNSConfiguration_after_page (s s1 : St) (doc : Node) :
  GetDNSConfiguration_page s = Some (doc, s1) →
  GetDNSConfiguration s = (GetDNSConfiguration_parsed doc, s1).
Proof.
  unfold GetDNSConfiguration_page, GetDNSConfiguration_reply, GetDNSConfiguration,
    GetDNSConfiguration_parsed, bind, this, ret.
  destruct (http_NewRequest _ _ _) as [req|e]; [|discriminate].
  destruct (session_Do _ s) as [[resp'|e] s'] eqn:HDo; [|discriminate].
  destruct (StatusCode resp' =? http_StatusOK); [|discriminate]. cbn [negb].
  destruct (htmlquery_Parse _) as [doc'|e]; [|discriminate].
  intros [= -> ->]. cbn [htmlquery_SelectAttr].
  repeat next_case; reflexivity.
Qed.

Lemma GetDNSConfiguration_page_reply (s s1 : St) (resp : Response Payload)
    (doc : Node) :
  GetDNSConfiguration_reply s = Some (resp, s1) →
  StatusCode resp = 200 →
  htmlquery_Parse (Body resp) = Ok doc →
  GetDNSConfiguration_page s = Some (doc, s1).
Proof.
  unfold GetDNSConfiguration_page. intros -> -> ->. reflexivity.
Qed.

(** C5, as the code has it.  A response whose status is not 200 is a
    fetch-failed error; a 200 response is parsed, and then the form-not-found
    error is returned exactly when the form with the fixed id is absent (a
    body that does not parse gives the parser's error). *)
Theorem GetDNSConfiguration_fetch (s s1 : St) (resp : Response Payload)
    (Hreply : GetDNSConfiguration_reply s = Some (resp, s1)) :
  (StatusCode resp ≠ 200 →
   GetDNSConfiguration s
   = ((DNSConfig_zero, Some (errors_New "failed to fetch TXT records")), s1))
  ∧ (StatusCode resp = 200 →
     (∀ e, htmlquery_Parse (Body resp) = Err e →
           GetDNSConfiguration s = ((DNSConfig_zero, Some e), s1))
     ∧ (∀ doc, htmlquery_Parse (Body resp) = Ok doc →
          (snd (fst (GetDNSConfiguration s))
           = Some (errors_New "failed to find form element")
           ↔ htmlquery_FindOne doc "//form[@id='jss_txt_record_form']" = None))).
Proof.
  split; [now apply GetDNSConfiguration_after_reply|].
  intros H200. split.
  - intros e He. eapply GetDNSConfiguration_parse_error; eauto.
  - intros doc Hdoc.
    rewrite (GetDNSConfiguration_after_page s s1 doc)
      by (eapply GetDNSConfiguration_page_reply; eauto).
    unfold GetDNSConfiguration_parsed. cbn [fst snd].
    destruct (htmlquery_FindOne doc _) as [form|]; [|now split].
    split; [|discriminate].
    repeat next_case; cbn [snd]; intros [=].
Qed.

(** C8. A configuration that [GetDNSConfiguration] returns without error has
    non-empty [DMARCType] and [SPFType]: they are the value attributes of the
    checked inputs found in the form, so a missing input or an empty value
    gives an error and not a configuration. *)
Theorem GetDNSConfiguration_types_nonempty (s s' : St) (cfg : DNSConfig)
    (Hok : GetDNSConfiguration s = ((cfg, None), s')) :
  DMARCType cfg ≠ "" ∧ SPFType cfg ≠ ""
  ∧ ∃ doc form dmarcNode spfNode,
      GetDNSConfiguration_page s = Some (doc, s')
      ∧ htmlquery_FindOne doc "//form[@id='jss_txt_record_form']" = Some form
      ∧ htmlquery_FindOne form "//input[@name='dmarc_type' and @checked]"
        = Some dmarcNode
      ∧ htmlquery_FindOne form "//input[@name='spf_type' and @checked]"
        = Some spfNode
      ∧ DMARCType cfg = Node_attr dmarcNode "value"
      ∧ SPFType cfg = Node_attr spfNode "value".
Proof.
  destruct (GetDNSConfiguration_page s) as [[doc s1]|] eqn:Hpage.
  - rewrite (GetDNSConfiguration_after_page _ _ _ Hpage) in Hok.
    injection Hok as Hcfg <-. revert Hcfg. unfold GetDNSConfiguration_parsed.
    destruct (htmlquery_FindOne doc _) as [form|] eqn:Hform; [|discriminate].
    destruct (htmlquery_FindOne form "//input[@name='dmarc_type' and @checked]")
      as [dn|] eqn:Hdn; [|discriminate].
    destruct (String.eqb_spec (Node_attr dn "value") ""); [discriminate|].
    destruct (htmlquery_FindOne form "//input[@name='spf_type' and @checked]")
      as [sn|] eqn:Hsn; [|discriminate].
    destruct (String.eqb_spec (Node_attr sn "value") ""); [discriminate|].
    intros [= <-]. cbn [DMARCType SPFType].
    split; [assumption|split; [assumption|]].
    exists doc, form, dn, sn. auto 10.
  - exfalso. revert Hpage Hok.
    unfold GetDNSConfiguration_page, GetDNSConfiguration_reply, GetDNSConfiguration,
      bind, this, ret.
    destruct (http_NewRequest _ _ _) as [req|e]; [|discriminate].
    destruct (session_Do _ s) as [[resp'|e] s1] eqn:HDo; [|discriminate].
    destruct (StatusCode resp' =? http_StatusOK); [|discriminate]. cbn [negb].
    destruct (htmlquery_Parse _) as [doc'|e]; discriminate.
Qed.

(** ** The reader's rows *)

Lemma GetDNSConfiguration_rows (rows : list Node) (acc : list DNSRecord) :
  fold_left GetDNSConfiguration_row rows acc
  = acc ++ map row_record (List.filter row_complete rows).
Proof.
  revert acc. induction rows as [|row rows IH]; intros acc; cbn [fold_left].
  - simpl. now rewrite app_nil_r.
  - rewrite IH. cbn [List.filter].
    unfold GetDNSConfiguration_row, row_complete, row_type, row_value, go_append.
    destruct (htmlquery_FindOne row ".//select[@name='type']/option[@selected]")
      eqn:Ht; [|reflexivity].
    destruct (htmlquery_FindOne row ".//textarea[@name='value']") eqn:Hv;
      [|reflexivity].
    cbn [map]. rewrite <- app_assoc.
    unfold row_record at 2, row_type, row_value, row_prefix. rewrite Ht, Hv.
    reflexivity.
Qed.

(** C6. On a page whose form has both checked inputs, the reader succeeds
    whatever the rows are; its records are the records of the rows that have
    a selected type option and a value textarea, in the order of the rows;
    the other rows are left out; and a row without prefix input (or with an
    empty prefix value) gives a record whose [Prefix] is the empty string. *)
Theorem GetDNSConfiguration_records (s s1 : St) (doc form dmarcNode spfNode : Node)
    (Hpage : GetDNSConfiguration_page s = Some (doc, s1))
    (Hform : htmlquery_FindOne doc "//form[@id='jss_txt_record_form']" = Some form)
    (Hdmarc : htmlquery_FindOne form "//input[@name='dmarc_type' and @checked]"
              = Some dmarcNode)
    (Hdmarc_value : Node_attr dmarcNode "value" ≠ "")
    (Hspf : htmlquery_FindOne form "//input[@name='spf_type' and @checked]"
            = Some spfNode)
    (Hspf_value : Node_attr spfNode "value" ≠ "") :
  let rows :=
    htmlquery_Find form
      "//div[@id='jss_txt_container']/div[contains(@class, 'txt-record-tmpl')]" in
  GetDNSConfiguration s
  = (({| DMARCType := Node_attr dmarcNode "value";
         SPFType := Node_attr spfNode "value";
         Records := map row_record (List.filter row_complete rows) |}, None), s1)
  ∧ (∀ row, row_complete row = true
            ↔ (∃ t v, htmlquery_FindOne row ".//select[@name='type']/option[@selected]"
                      = Some t
                      ∧ htmlquery_FindOne row ".//textarea[@name='value']" = Some v))
  ∧ (∀ row, htmlquery_FindOne row ".//input[@name='prefix']" = None →
            Prefix (row_record row) = "")
  ∧ (∀ row p, htmlquery_FindOne row ".//input[@name='prefix']" = Some p →
              Prefix (row_record row) = Node_attr p "value").
Proof.
  intros rows. split; [|split; [intros row; split|split]].
  - rewrite (GetDNSConfiguration_after_page _ _ _ Hpage).
    unfold GetDNSConfiguration_parsed. rewrite Hform, Hdmarc.
    destruct (String.eqb_spec (Node_attr dmarcNode "value") ""); [contradiction|].
    rewrite Hspf.
    destruct (String.eqb_spec (Node_attr spfNode "value") ""); [contradiction|].
    fold rows. now rewrite GetDNSConfiguration_rows.
  - unfold row_complete, row_type, row_value.
    destruct (htmlquery_FindOne row ".//select[@name='type']/option[@selected]")
      as [t|]; [|discriminate].
    destruct (htmlquery_FindOne row ".//textarea[@name='value']") as [v|];
      [|discriminate].
    intros _. now exists t, v.
  - intros (t & v & Ht & Hv). unfold row_complete, row_type, row_value.
    now rewrite Ht, Hv.
  - intros row H. unfold row_record, row_prefix. now rewrite H.
  - intros row p H. unfold row_record, row_prefix. now rewrite H.
Qed.

(** ** The login handshake *)

Lemma authenticate_after_reply (s s1 : St) (resp : Response Payload) :
  authenticate_reply s = Some (resp, s1) →
  authenticate s = authenticate_answer resp s1.
Proof.
  unfold authenticate_reply, authenticate, authenticate_answer, bind, this, ret.
  destruct (http_NewRequest "GET" _ _) as [req|e]; [|discriminate].
  destruct (session_Do req s) as [[resp0|e] s0] eqn:HDo; [|discriminate].
  cbn [go_append app].
  destruct (http_NewRequest "POST" _ _) as [req'|e]; [|discriminate].
  destruct (session_Do _ s0) as [[resp'|e] s'] eqn:HDo'; [|discriminate].
  intros [= -> ->]. reflexivity.
Qed.

(** the requests of [authenticate] *)
Lemma authenticate_sent (s : St) :
  let c := receiver s in
  let get := mkRequest "GET" (api c) [] None in
  let body :=
    strings_Join ["identifier=" +:+ identifier c; "passwd=" +:+ password c;
                  "action_customer_login.x=Login"] "&" in
  sent (snd (authenticate s))
  = sent s ++
    match url_Parse (api c) with
    | Err _ => []
    | Ok _ =>
        get :: match fst (http_Do (session c) get (world s)) with
               | Err _ => []
               | Ok _ => [mkRequest "POST" (api c)
                            [("Content-Type", ["application/x-www-form-urlencoded"])]
                            (Some body)]
               end
    end.
Proof.
  intros c get body. subst c get body.
  unfold authenticate, bind, this, ret, session_Do, http_NewRequest.
  cbn [go_append app].
  destruct (url_Parse (api (receiver s))) eqn:Hu; [|now rewrite app_nil_r].
  match goal with |- context [http_Do ?a ?b ?c] =>
    destruct (http_Do a b c) as [[r0|e0] w0] end;
    cbn [fst receiver world sent]; [|reflexivity].
  unfold Request_Header_Set; cbn [Method ReqURL ReqHeader ReqBody Values_Set].
  match goal with |- context [http_Do ?a ?b ?c] =>
    destruct (http_Do a b c) as [[r1|e1] w1] end;
    cbn [receiver world sent]; unfold go_append; rewrite <- app_assoc;
    [|reflexivity].
  unfold set_sessionID. repeat next_case; reflexivity.
Qed.

(** C2, as the code has it.  The answer to the login POST is classified by
    its status.  On 302 whose Location parses: a [sessionID] query parameter
    with a non-empty first value [T] makes the login succeed and stores
    exactly [T]; a Location without that parameter, or with an empty value
    for it, gives the error "sessionID not found in redirect URL".  On 302
    whose Location does not parse the parser's error is returned.  On 200 the
    error is "authentication failed"; on any other status it is the
    unexpected-status error. *)
Theorem authenticate_classifies (s s1 : St) (resp : Response Payload)
    (Hreply : authenticate_reply s = Some (resp, s1)) :
  let location := Values_Get (Header resp) "Location" in
  (StatusCode resp = 302 →
   ∀ u, url_Parse location = Ok u →
     (∀ T rest, Values_lookup (URL_Query u) "sessionID" = Some (T :: rest) → T ≠ "" →
        authenticate s = (None, snd (set_sessionID T s1))
        ∧ sessionID (receiver (snd (authenticate s))) = T)
     ∧ (Values_lookup (URL_Query u) "sessionID" = None →
        fst (authenticate s) = Some (errors_New "sessionID not found in redirect URL"))
     ∧ (Values_Get (URL_Query u) "sessionID" = "" →
        fst (authenticate s) = Some (errors_New "sessionID not found in redirect URL")))
  ∧ (StatusCode resp = 302 →
     ∀ e, url_Parse location = Err e → authenticate s = (Some e, s1))
  ∧ (StatusCode resp = 200 →
     authenticate s = (Some (errors_New "authentication failed"), s1))
  ∧ (StatusCode resp ≠ 302 → StatusCode resp ≠ 200 →
     authenticate s
     = (Some (errors_New ("unexpected response status: " +:+ Status resp)), s1)).
Proof.
  intros location. rewrite (authenticate_after_reply _ _ _ Hreply).
  unfold authenticate_answer, http_StatusFound, http_StatusOK, bind, this, ret.
  fold location.
  assert (Hempty : ∀ u, Values_Get (URL_Query u) "sessionID" = "" →
            fst (let '(a, s') := set_sessionID (Values_Get (URL_Query u) "sessionID") s1 in
                 (if (sessionID (receiver s') =? "")%string
                  then λ s0, (Some (errors_New "sessionID not found in redirect URL"), s0)
                  else λ s0, (None, s0)) s')
            = Some (errors_New "sessionID not found in redirect URL")).
  { intros u ->. reflexivity. }
  split; [|split; [|split]].
  - intros -> u ->. cbn [Z.eqb Pos.eqb]. split; [|split].
    + intros T rest HT Hne. unfold Values_Get. rewrite HT.
      unfold set_sessionID. cbn [receiver sessionID].
      destruct (String.eqb_spec T ""); [contradiction|]. split; reflexivity.
    + intros HT. apply Hempty. unfold Values_Get. now rewrite HT.
    + apply Hempty.
  - intros -> e ->. reflexivity.
  - intros ->. reflexivity.
  - intros H1 H2.
    destruct (Z.eqb_spec (StatusCode resp) 302); [contradiction|].
    destruct (Z.eqb_spec (StatusCode resp) 200); [contradiction|]. reflexivity.
Qed.

(** ** The customer identifier *)

Lemma populatePackageID_after_page (s s1 : St) (doc : Node) :
  populatePackageID_page s = Some (doc, s1) →
  populatePackageID s = populatePackageID_found (order (receiver s)) doc s1
  ∧ receiver s1 = receiver s.
Proof.
  unfold populatePackageID_page, populatePackageID, populatePackageID_found,
    bind, this, ret.
  destruct (http_NewRequest _ _ _) as [req|e]; [|discriminate].
  unfold session_Do.
  destruct (http_Do _ _ _) as [[resp|e] w]; [|discriminate].
  destruct (htmlquery_Parse _) as [doc'|e]; [|discriminate].
  intros [= -> <-]. split; reflexivity.
Qed.

(** the loop stops at the first part that starts with [cID=] *)
Lemma populatePackageID_scan_first (parts : list string) (s : St) :
  populatePackageID_scan parts s
  = (tt, match List.find (λ part, strings_HasPrefix part "cID=") parts with
         | Some part => snd (set_cID (strings_TrimPrefix part "cID=") s)
         | None => s
         end).
Proof.
  induction parts as [|part parts IH]; cbn [populatePackageID_scan List.find].
  - reflexivity.
  - destruct (strings_HasPrefix part "cID="); [reflexivity|exact IH].
Qed.

(** a request that cannot be built or sent ends the lookup with a nil error *)
Lemma populatePackageID_transport_error (s : St) :
  populatePackageID_page s = None →
  (∀ req resp w, http_Do (session (receiver s)) req (world s) = (Ok resp, w) →
                 ∃ doc, htmlquery_Parse (Body resp) = Ok doc) →
  fst (populatePackageID s) = None
  ∧ receiver (snd (populatePackageID s)) = receiver s.
Proof.
  unfold populatePackageID_page, populatePackageID, bind, this, ret.
  destruct (http_NewRequest _ _ _) as [req|e]; [|now split].
  unfold session_Do.
  destruct (http_Do _ _ _) as [[resp|e] w] eqn:HDo; [|now split].
  intros Hnone Hparse. destruct (Hparse _ _ _ HDo) as [doc Hdoc].
  rewrite Hdoc in Hnone. discriminate.
Qed.

(** C4, as the code has it.  On a dashboard with a container for the order
    label, the href of the container's first link is split at '&' and the
    first part that starts with [cID=] gives the identifier, when what follows
    [cID=] is not empty.  No container, no link in it, an empty href, and a
    link without usable identifier (no such part while the client's [cID] is
    still empty, as it is in the constructor, or a first such part with
    nothing after [cID=]) give four different errors. *)
Theorem populatePackageID_resolves (s s1 : St) (doc : Node)
    (Hpage : populatePackageID_page s = Some (doc, s1)) :
  let q := "//div[@data-pkg-name-order='" +:+ order (receiver s) +:+ "']" in
  (htmlquery_FindOne doc q = None →
   populatePackageID s = (Some (errors_New "failed to find order"), s1))
  ∧ (∀ div, htmlquery_FindOne doc q = Some div →
     (htmlquery_FindOne div ".//a" = None →
      populatePackageID s = (Some (errors_New "failed to find link"), s1))
     ∧ (∀ a, htmlquery_FindOne div ".//a" = Some a →
        let first :=
          List.find (λ part, strings_HasPrefix part "cID=")
            (strings_Split (Node_attr a "href") "&") in
        (Node_attr a "href" = "" →
         populatePackageID s = (Some (errors_New "failed to find link value"), s1))
        ∧ (Node_attr a "href" ≠ "" →
           (∀ part, first = Some part → strings_TrimPrefix part "cID=" ≠ "" →
              populatePackageID s
              = (None, snd (set_cID (strings_TrimPrefix part "cID=") s1))
              ∧ cID (receiver (snd (populatePackageID s)))
                = strings_TrimPrefix part "cID=")
           ∧ (∀ part, first = Some part → strings_TrimPrefix part "cID=" = "" →
                fst (populatePackageID s)
                = Some (errors_New "failed to find cID in link"))
           ∧ (first = None → cID (receiver s) = "" →
              populatePackageID s
              = (Some (errors_New "failed to find cID in link"), s1)))))
  ∧ NoDup [errors_New "failed to find order"; errors_New "failed to find link";
           errors_New "failed to find link value";
           errors_New "failed to find cID in link"].
Proof.
  intros q. destruct (populatePackageID_after_page _ _ _ Hpage) as [-> Hrecv].
  unfold populatePackageID_found. fold q.
  split; [|split].
  - intros ->. reflexivity.
  - intros div ->. split; [intros ->; reflexivity|].
    intros a ->. cbn [htmlquery_SelectAttr].
    set (first := List.find (λ part, strings_HasPrefix part "cID=")
                    (strings_Split (Node_attr a "href") "&")).
    split.
    + intros ->. reflexivity.
    + intros Hne. destruct (String.eqb_spec (Node_attr a "href") ""); [contradiction|].
      unfold bind, this, ret. rewrite populatePackageID_scan_first. fold first.
      split; [|split].
      * intros part -> Hv. unfold set_cID. cbn [snd receiver cID].
        destruct (String.eqb_spec (strings_TrimPrefix part "cID=") "");
          [contradiction|]. split; reflexivity.
      * intros part -> Hv. unfold set_cID. cbn [snd receiver cID].
        rewrite Hv. reflexivity.
      * intros -> Hc. rewrite Hrecv, Hc. reflexivity.
  - repeat (apply NoDup_cons; split;
            [rewrite ?elem_of_cons, elem_of_nil; intuition discriminate|]).
    apply NoDup_nil; exact I.
Qed.

(** ** The two bodies, unescaped *)

Lemma authenticate_form_raw (c : Client) :
  strings_Join ["identifier=" +:+ identifier c; "passwd=" +:+ password c;
                "action_customer_login.x=Login"] "&"
  = raw_form (authenticate_fields c).
Proof. reflexivity. Qed.

Lemma SetDNSConfiguration_form_raw (c : Client) (config : DNSConfig) :
  strings_Join (SetDNSConfiguration_form c config) "&"
  = raw_form (SetDNSConfiguration_fields c config).
Proof.
  unfold raw_form, SetDNSConfiguration_fields. f_equal.
  rewrite SetDNSConfiguration_form_fields, !map_app. f_equal. f_equal.
  induction (Records config) as [|r records IH]; [reflexivity|].
  cbn [flat_map map app]. now rewrite IH.
Qed.

(** * Further properties of the code *)

(** ** cmd/main.go: membership and removal *)

Lemma same_record_eq (a b : DNSRecord) : same_record a b = true ↔ a = b.
Proof.
  unfold same_record. destruct a as [t p v], b as [t' p' v']; cbn.
  rewrite !andb_true_iff, !String.eqb_eq. split.
  - intros [[-> ->] ->]. reflexivity.
  - intros [= -> -> ->]. auto.
Qed.

Lemma contains_same (records : list DNSRecord) (record : DNSRecord) :
  contains records record = existsb (λ entry, same_record entry record) records.
Proof.
  induction records as [|entry records IH]; cbn [contains existsb]; [reflexivity|].
  unfold same_record at 1. rewrite IH.
  now destruct (_ && _ && _).
Qed.

Lemma contains_In (records : list DNSRecord) (record : DNSRecord) :
  contains records record = true ↔ In record records.
Proof.
  rewrite contains_same, existsb_exists. split.
  - intros (entry & Hin & Hsame). now apply same_record_eq in Hsame as ->.
  - intros Hin. exists record. split; [assumption|]. now apply same_record_eq.
Qed.

(** X1. [contains] decides membership: it answers true exactly when a record
    with the same type, prefix and value is in the list. *)
Theorem contains_iff (records : list DNSRecord) (record : DNSRecord) :
  contains records record = true ↔ record ∈ records.
Proof.
  rewrite contains_In. symmetry. apply list_elem_of_In.
Qed.

Lemma main_remove_fold (provided : DNSRecord) (records acc : list DNSRecord) :
  fold_left (main_remove_step provided) records acc
  = acc ++ List.filter (λ r, negb (same_record r provided)) records.
Proof.
  revert acc. induction records as [|r records IH]; intros acc; cbn [fold_left List.filter].
  - now rewrite app_nil_r.
  - rewrite IH. unfold main_remove_step, same_record, go_append.
    rewrite <- !negb_andb.
    destruct (negb _); [|reflexivity].
    rewrite <- app_assoc. reflexivity.
Qed.

Lemma filter_length_all {A : Type} (f : A → bool) (l : list A) :
  length (List.filter f l) = length l ↔ ∀ x, x ∈ l → f x = true.
Proof.
  induction l as [|a l IH]; cbn [List.filter length].
  - split; [intros _ x Hx; now apply elem_of_nil in Hx|reflexivity].
  - destruct (f a) eqn:Hfa; cbn [length].
    + split.
      * intros [= Hlen] x Hx. apply elem_of_cons in Hx as [->|Hx]; [assumption|].
        now apply IH.
      * intros Hall. f_equal. apply IH. intros x Hx. apply Hall.
        apply elem_of_cons. now right.
    + split.
      * intros Hlen. pose proof (List.filter_length_le f l). lia.
      * intros Hall. rewrite Hall in Hfa; [discriminate|]. apply elem_of_cons. now left.
Qed.

(** the test of line 116 *)
Lemma main_remove_unchanged (provided : DNSRecord) (records : list DNSRecord) :
  (length (fold_left (main_remove_step provided) records [])
   =? length records)%nat = negb (contains records provided).
Proof.
  rewrite main_remove_fold. cbn [app].
  destruct (contains records provided) eqn:Hc; cbn [negb].
  - apply Nat.eqb_neq. intros Hlen.
    pose proof (proj1 (filter_length_all _ _) Hlen) as Hall.
    apply contains_In, list_elem_of_In in Hc. specialize (Hall _ Hc). cbn beta in Hall.
    rewrite (proj2 (same_record_eq provided provided) eq_refl) in Hall. discriminate.
  - apply Nat.eqb_eq. apply (proj2 (filter_length_all _ _)). intros x Hx.
    destruct (same_record x provided) eqn:Hs; [|reflexivity].
    apply same_record_eq in Hs as ->. apply list_elem_of_In, contains_In in Hx.
    congruence.
Qed.

(** X2. The loop of the remove command keeps, in their order, exactly the
    records that differ from the given one in some field: the result no
    longer contains the given record, every other record stays, and the
    length is unchanged exactly when the record was not there. *)
Theorem main_remove_loop (provided : DNSRecord) (records : list DNSRecord) :
  let updated := fold_left (main_remove_step provided) records [] in
  contains updated provided = false
  ∧ (∀ r, r ∈ updated ↔ r ∈ records ∧ r ≠ provided)
  ∧ sublist updated records
  ∧ (length updated = length records ↔ contains records provided = false).
Proof.
  intros updated. subst updated.
  assert (Hin : ∀ r, r ∈ fold_left (main_remove_step provided) records []
                     ↔ r ∈ records ∧ r ≠ provided).
  { intros r. rewrite main_remove_fold. cbn [app].
    rewrite !list_elem_of_In, filter_In, negb_true_iff.
    split; intros [H1 H2]; (split; [assumption|]).
    - intros ->. rewrite (proj2 (same_record_eq provided provided) eq_refl) in H2.
      discriminate.
    - destruct (same_record r provided) eqn:Hs; [|reflexivity].
      now apply same_record_eq in Hs. }
  split; [|split; [exact Hin|split]].
  - destruct (contains _ provided) eqn:Hc; [|reflexivity].
    apply contains_In, list_elem_of_In, Hin in Hc as [_ Hne]. contradiction.
  - rewrite main_remove_fold. cbn [app]. clear Hin.
    induction records as [|r records IH]; cbn [List.filter]; [constructor|].
    destruct (negb _); [now apply sublist_skip|now apply sublist_cons].
  - pose proof (main_remove_unchanged provided records) as Hlen.
    destruct (contains records provided); cbn [negb] in Hlen.
    + apply Nat.eqb_neq in Hlen. split; [contradiction|discriminate].
    + apply Nat.eqb_eq in Hlen. now split.
Qed.

(** ** client.go: what the methods send and what they leave alone *)

(** the request of [GetDNSConfiguration] *)
Lemma GetDNSConfiguration_sent (s : St) :
  let c := receiver s in
  let getURL := api c +:+ "?sessionID=" +:+ sessionID c +:+ "&cID=" +:+ cID c
                +:+ "&node=ManageDomains" +:+ "&action_show_txt_records"
                +:+ "&vhost=" +:+ domain c in
  sent (snd (GetDNSConfiguration s))
  = sent s ++ match url_Parse getURL with
              | Ok _ => [mkRequest "GET" getURL [] None]
              | Err _ => []
              end.
Proof.
  intros c getURL. subst c getURL.
  unfold GetDNSConfiguration, bind, this, ret, session_Do, http_NewRequest.
  destruct (url_Parse _); [|now rewrite app_nil_r].
  match goal with |- context [http_Do ?a ?b ?c] =>
    destruct (http_Do a b c) as [[r0|e0] w0] end;
    cbn [receiver world sent]; [|reflexivity].
  repeat next_case; reflexivity.
Qed.

Lemma GetDNSConfiguration_nil_parsed (s s' : St) (cfg : DNSConfig) :
  GetDNSConfiguration s = ((cfg, None), s') →
  ∃ u, url_Parse (api (receiver s) +:+ "?sessionID=" +:+ sessionID (receiver s)
                  +:+ "&cID=" +:+ cID (receiver s) +:+ "&node=ManageDomains"
                  +:+ "&action_show_txt_records" +:+ "&vhost="
                  +:+ domain (receiver s)) = Ok u.
Proof.
  unfold GetDNSConfiguration, bind, this, ret, http_NewRequest.
  destruct (url_Parse _) as [u|e]; [eauto|discriminate].
Qed.

(** X3. [GetDNSConfiguration] asks for one URL: the endpoint, the session
    token, the client's [cID], the manage-domains selector, the show-records
    flag and the domain.  When that URL parses, the call hands exactly one
    request to the transport, a GET for it without body or header fields,
    whatever follows; when it does not parse, nothing is sent and the
    parser's error is returned with the zero configuration. *)
Theorem GetDNSConfiguration_request (s : St) :
  let c := receiver s in
  let getURL := api c +:+ "?sessionID=" +:+ sessionID c +:+ "&cID=" +:+ cID c
                +:+ "&node=ManageDomains" +:+ "&action_show_txt_records"
                +:+ "&vhost=" +:+ domain c in
  match url_Parse getURL with
  | Ok _ =>
      sent (snd (GetDNSConfiguration s))
      = sent s ++ [mkRequest "GET" getURL [] None]
  | Err e => GetDNSConfiguration s = ((DNSConfig_zero, Some e), s)
  end.
Proof.
  intros c getURL. subst c getURL.
  destruct (url_Parse _) as [u|e] eqn:Hu.
  - rewrite GetDNSConfiguration_sent. cbn zeta. now rewrite Hu.
  - unfold GetDNSConfiguration, bind, this, ret, http_NewRequest.
    now rewrite Hu.
Qed.

(** X4. Whenever [GetDNSConfiguration] returns an error, the configuration
    it returns with it is the zero value [DNSConfig{}]. *)
Theorem GetDNSConfiguration_error_zero (s s' : St) (cfg : DNSConfig) (e : error)
    (Herr : GetDNSConfiguration s = ((cfg, Some e), s')) :
  cfg = DNSConfig_zero.
Proof.
  revert Herr. unfold GetDNSConfiguration, bind, this, ret, session_Do.
  repeat next_case; intros [= <- ? ?]; reflexivity.
Qed.

(** [authenticate] writes only [sessionID] *)
Lemma authenticate_frame (s : St) :
  let c := receiver s in
  receiver (snd (authenticate s))
  = mkStratoClient (api c) (identifier c) (password c) (order c) (domain c)
      (cID c) (session c) (sessionID (receiver (snd (authenticate s)))).
Proof.
  destruct s as [[a i p o d ci se si] w reqs]. cbn zeta.
  unfold authenticate, bind, this, ret, session_Do, set_sessionID.
  cbn [receiver world sent api identifier password order domain cID session
       sessionID].
  repeat next_case; reflexivity.
Qed.

(** [populatePackageID] writes only [cID] *)
Lemma populatePackageID_frame (s : St) :
  let c := receiver s in
  receiver (snd (populatePackageID s))
  = mkStratoClient (api c) (identifier c) (password c) (order c) (domain c)
      (cID (receiver (snd (populatePackageID s)))) (session c) (sessionID c).
Proof.
  destruct s as [[a i p o d ci se si] w reqs]. cbn zeta.
  unfold populatePackageID, bind, this, ret, session_Do.
  cbn [receiver world sent api identifier password order domain cID session
       sessionID].
  repeat first [rewrite populatePackageID_scan_first; cbv beta iota
               | next_case]; reflexivity.
Qed.

(** X5. [authenticate] writes no field of the client but [sessionID], and
    [populatePackageID] writes none but [cID], whatever the peer answers. *)
Theorem login_and_lookup_frame (s : St) :
  let c := receiver s in
  receiver (snd (authenticate s))
  = mkStratoClient (api c) (identifier c) (password c) (order c) (domain c)
      (cID c) (session c) (sessionID (receiver (snd (authenticate s))))
  ∧ receiver (snd (populatePackageID s))
    = mkStratoClient (api c) (identifier c) (password c) (order c) (domain c)
        (cID (receiver (snd (populatePackageID s)))) (session c) (sessionID c).
Proof.
  split; [apply authenticate_frame|apply populatePackageID_frame].
Qed.

(** X6. The requests of [authenticate].  When the endpoint does not parse
    as a URL, nothing is sent and the parser's error is returned.  When the
    preliminary GET fails in the transport, that error is returned, the GET
    is the only request and the credentials never leave.  When the GET is
    answered, exactly two requests are sent, whatever the answer to the
    second: the GET, then the POST to the same URL with the form content
    type and the three login fields. *)
Theorem authenticate_requests (s : St) :
  let c := receiver s in
  let get := mkRequest "GET" (api c) [] None in
  let post :=
    mkRequest "POST" (api c)
      [("Content-Type", ["application/x-www-form-urlencoded"])]
      (Some (strings_Join ["identifier=" +:+ identifier c;
                           "passwd=" +:+ password c;
                           "action_customer_login.x=Login"] "&")) in
  match url_Parse (api c) with
  | Err e => authenticate s = (Some e, s)
  | Ok _ =>
      match http_Do (session c) get (world s) with
      | (Err e, w1) => authenticate s = (Some e, mkState c w1 (sent s ++ [get]))
      | (Ok _, _) => sent (snd (authenticate s)) = sent s ++ [get; post]
      end
  end.
Proof.
  intros c get post. subst c get post.
  destruct (url_Parse (api (receiver s))) as [u|e] eqn:Hu.
  - destruct (http_Do _ _ (world s)) as [[r0|e0] w0] eqn:Hdo.
    + rewrite authenticate_sent. cbn zeta. now rewrite Hu, Hdo.
    + unfold authenticate, bind, this, ret, session_Do, http_NewRequest.
      now rewrite Hu, Hdo.
  - unfold authenticate, bind, this, ret, http_NewRequest. now rewrite Hu.
Qed.

(** a login that returns nil went through both requests and stored a token *)
Lemma authenticate_nil (s s1 : St) :
  authenticate s = (None, s1) →
  sessionID (receiver s1) ≠ ""
  ∧ sent s1
    = sent s ++
      [mkRequest "GET" (api (receiver s)) [] None;
       mkRequest "POST" (api (receiver s))
         [("Content-Type", ["application/x-www-form-urlencoded"])]
         (Some (strings_Join ["identifier=" +:+ identifier (receiver s);
                              "passwd=" +:+ password (receiver s);
                              "action_customer_login.x=Login"] "&"))].
Proof.
  intros Hrun. pose proof (authenticate_sent s) as Hsent. cbn zeta in Hsent.
  rewrite Hrun in Hsent. cbn [snd] in Hsent. revert Hrun Hsent.
  unfold authenticate, bind, this, ret, session_Do, http_NewRequest.
  cbn [go_append app].
  destruct (url_Parse (api (receiver s))) as [u|e]; [|discriminate].
  match goal with |- context [http_Do ?a ?b ?c] =>
    destruct (http_Do a b c) as [[r0|e0] w0] end;
    cbn [fst receiver world sent]; [|discriminate].
  unfold Request_Header_Set; cbn [Method ReqURL ReqHeader ReqBody Values_Set].
  match goal with |- context [http_Do ?a ?b ?c] =>
    destruct (http_Do a b c) as [[r1|e1] w1] end; [|discriminate].
  destruct (StatusCode r1 =? http_StatusFound);
    [|destruct (StatusCode r1 =? http_StatusOK); discriminate].
  destruct (url_Parse (Values_Get _ _)) as [u'|e']; [|discriminate].
  unfold set_sessionID. cbn [receiver sessionID].
  destruct (String.eqb_spec (Values_Get (URL_Query u') "sessionID") "");
    [discriminate|].
  intros [= <-] Hsent. cbn [receiver sessionID]. split; assumption.
Qed.

(** the request of [populatePackageID] *)
Lemma populatePackageID_sent (s : St) :
  let c := receiver s in
  let getURL := api c +:+ "?sessionID=" +:+ sessionID c +:+ "&cID=0"
                +:+ "&node=kds_CustomerEntryPage" in
  sent (snd (populatePackageID s))
  = sent s ++ match url_Parse getURL with
              | Ok _ => [mkRequest "GET" getURL [] None]
              | Err _ => []
              end.
Proof.
  intros c getURL. subst c getURL.
  unfold populatePackageID, bind, this, ret, session_Do, http_NewRequest.
  destruct (url_Parse _); [|now rewrite app_nil_r].
  match goal with |- context [http_Do ?a ?b ?c] =>
    destruct (http_Do a b c) as [[r0|e0] w0] end;
    cbn [receiver world sent]; [|reflexivity].
  repeat first [rewrite populatePackageID_scan_first; cbv beta iota
               | next_case]; reflexivity.
Qed.



(** X8. What a successful [NewStratoClient] has sent: the GET for the entry
    page, the POST of the credentials with its form content type, and, when
    its URL parses, the GET for the dashboard under the token just received
    and the placeholder [cID=0]; in this order and nothing else. *)
Theorem NewStratoClient_requests (a i p o d : string) (w w' : World) (c : Client)
    (reqs : list Request)
    (Hnew : NewStratoClient a i p o d w = (Ok c, w', reqs)) :
  let dashboardURL := a +:+ "?sessionID=" +:+ sessionID c +:+ "&cID=0"
                      +:+ "&node=kds_CustomerEntryPage" in
  reqs
  = [mkRequest "GET" a [] None;
     mkRequest "POST" a [("Content-Type", ["application/x-www-form-urlencoded"])]
       (Some (strings_Join ["identifier=" +:+ i; "passwd=" +:+ p;
                            "action_customer_login.x=Login"] "&"))]
    ++ match url_Parse dashboardURL with
       | Ok _ => [mkRequest "GET" dashboardURL [] None]
       | Err _ => []
       end.
Proof.
  revert Hnew. unfold NewStratoClient.
  destruct cookiejar_New as [jar|e]; [|discriminate].
  set (s0 := mkState _ w []).
  destruct (authenticate s0) as [[e|] s1] eqn:Hauth; [discriminate|].
  destruct (populatePackageID s1) as [[e|] s2] eqn:Hpop; [discriminate|].
  intros [= <- <- <-].
  pose proof (authenticate_frame s0) as Ha.
  pose proof (populatePackageID_frame s1) as Hp.
  pose proof (populatePackageID_sent s1) as Hs.
  rewrite Hauth in Ha. rewrite Hpop in Hp, Hs. cbn [snd] in Ha, Hp, Hs.
  cbn zeta in Ha, Hp, Hs.
  destruct (authenticate_nil _ _ Hauth) as [_ Hsent].
  rewrite Hs, Hsent, Hp. rewrite Ha.
  cbn [api identifier password order domain sessionID session cID receiver sent
       s0 app].
  reflexivity.
Qed.

(** ** Bodies that read back *)

Lemma string_lacks_app (c : ascii) (a b : string) :
  string_lacks c (a +:+ b) = string_lacks c a && string_lacks c b.
Proof.
  induction a as [|x a IH]; [reflexivity|].
  simpl. rewrite IH. now rewrite andb_assoc.
Qed.

Lemma strings_Split_lacks (s : string) (sep : ascii) :
  string_lacks sep s = true → strings_Split s sep = [s].
Proof.
  induction s as [|c s IH]; [reflexivity|]. cbn [string_lacks strings_Split].
  intros [Hc Hs]%andb_true_iff. apply negb_true_iff in Hc. rewrite Hc.
  now rewrite (IH Hs).
Qed.

Lemma strings_Split_app (s t : string) (sep : ascii) :
  string_lacks sep s = true →
  strings_Split (s +:+ String sep t) sep = s :: strings_Split t sep.
Proof.
  induction s as [|c s IH]; simpl.
  - intros _. now rewrite Ascii.eqb_refl.
  - intros [Hc Hs]%andb_true_iff. apply negb_true_iff in Hc. rewrite Hc.
    now rewrite (IH Hs).
Qed.

(** [strings.Split] undoes [strings.Join] on pieces without the separator *)
Lemma strings_Split_Join (pieces : list string) (sep : ascii) :
  pieces ≠ [] → forallb (string_lacks sep) pieces = true →
  strings_Split (strings_Join pieces (String sep "")) sep = pieces.
Proof.
  unfold strings_Join.
  induction pieces as [|p [|q pieces] IH]; [congruence| |]; intros _.
  - cbn [forallb String.concat]. rewrite andb_true_r. apply strings_Split_lacks.
  - intros [Hp Hrest]%andb_true_iff.
    change (String.concat (String sep "") (p :: q :: pieces))
      with (p +:+ String sep (String.concat (String sep "") (q :: pieces))).
    rewrite (strings_Split_app _ _ _ Hp). f_equal. now apply IH.
Qed.

Lemma strings_Cut_app (k v : string) (sep : ascii) :
  string_lacks sep k = true → strings_Cut (k +:+ String sep v) sep = (k, v).
Proof.
  induction k as [|c k IH]; simpl.
  - intros _. now rewrite Ascii.eqb_refl.
  - intros [Hc Hk]%andb_true_iff. apply negb_true_iff in Hc. rewrite Hc.
    now rewrite (IH Hk).
Qed.

Lemma url_QueryUnescape_plain (s : string) :
  string_lacks "%" s = true → string_lacks "+" s = true →
  url_QueryUnescape s = Some s.
Proof.
  induction s as [|c s IH]; [reflexivity|]. cbn [string_lacks].
  intros [Hc Hs]%andb_true_iff [Hc' Hs']%andb_true_iff.
  assert (Hstep : url_QueryUnescape (String c s) = String c <$> url_QueryUnescape s).
  { clear -Hc Hc'.
    destruct c as [[] [] [] [] [] [] [] []]; try discriminate; reflexivity. }
  rewrite Hstep, (IH Hs Hs'). reflexivity.
Qed.

(** fields written [key=value] and joined with '&' read back when no key
    holds '&', '%', '+' or '=' and no value holds '&', '%' or '+' *)
Lemma form_urldecode_raw_form (fields : list (string * string)) :
  forallb (λ kv, plain_key kv.1 && plain_value kv.2) fields = true →
  form_urldecode (raw_form fields) = fields.
Proof.
  intros Hplain. unfold form_urldecode, raw_form.
  destruct fields as [|kv fields]; [reflexivity|].
  rewrite (strings_Split_Join _ "&"); [|discriminate|].
  - induction (kv :: fields) as [|[k v] l IH]; [reflexivity|].
    cbn [forallb fst snd] in Hplain.
    apply andb_true_iff in Hplain as [Hkv Hl].
    apply andb_true_iff in Hkv as [Hk Hv].
    unfold plain_key, plain_value in Hk, Hv.
    repeat match goal with H : _ && _ = true |- _ =>
      apply andb_true_iff in H as [? ?] end.
    cbn [map flat_map fst snd]. rewrite (IH Hl).
    change (k +:+ "=" +:+ v) with (k +:+ String "=" v).
    destruct (String.eqb_spec (k +:+ String "=" v) "") as [He|_].
    + destruct k; discriminate.
    + rewrite strings_Cut_app by assumption.
      rewrite !url_QueryUnescape_plain by assumption. reflexivity.
  - rewrite forallb_forall in Hplain |- *. intros piece Hin.
    apply in_map_iff in Hin as [[k v] [<- Hin]]. specialize (Hplain _ Hin).
    cbn [fst snd] in *. unfold plain_key, plain_value in Hplain.
    repeat match goal with H : _ && _ = true |- _ =>
      apply andb_true_iff in H as [? ?] end.
    rewrite !string_lacks_app.
    repeat (apply andb_true_iff; split); try assumption; reflexivity.
Qed.

(** X9. The login body reads back as the three fields it was written from
    when neither the identifier nor the password holds '&', '%' or '+': the
    only request of [authenticate] that carries a body decodes to
    [identifier], [passwd] and the login action, in this order and with the
    client's values. *)
Theorem authenticate_body_reads_back (s : St)
    (Hidentifier : plain_value (identifier (receiver s)) = true)
    (Hpassword : plain_value (password (receiver s)) = true) :
  ∃ new, sent (snd (authenticate s)) = sent s ++ new
    ∧ ∀ req body, req ∈ new → ReqBody req = Some body →
        form_urldecode body
        = [("identifier", identifier (receiver s));
           ("passwd", password (receiver s));
           ("action_customer_login.x", "Login")].
Proof.
  pose proof (authenticate_sent s) as Hsent. cbn zeta in Hsent.
  eexists. split; [exact Hsent|].
  intros req body Hin Hbody.
  destruct (url_Parse _); [|now apply elem_of_nil in Hin].
  apply elem_of_cons in Hin as [->|Hin]; [discriminate|].
  destruct (fst _); [|now apply elem_of_nil in Hin].
  apply list_elem_of_singleton in Hin as ->. injection Hbody as <-.
  change (form_urldecode (raw_form (authenticate_fields (receiver s)))
          = authenticate_fields (receiver s)).
  apply form_urldecode_raw_form. unfold authenticate_fields.
  cbn [forallb fst snd]. rewrite Hidentifier, Hpassword. reflexivity.
Qed.

(** X10. The update body reads back as the fields it was written from when
    the session token, the domain, the two policy types and every field of
    every record are free of '&', '%' and '+': the request of
    [SetDNSConfiguration] decodes to the session token, [cID=1], the node,
    the domain, the two types, then type, prefix and value of each record in
    the order of the configuration, then the submit caption. *)
Theorem SetDNSConfiguration_body_reads_back (config : DNSConfig) (s : St)
    (Hsession : plain_value (sessionID (receiver s)) = true)
    (Hdomain : plain_value (domain (receiver s)) = true)
    (Hdmarc : plain_value (DMARCType config) = true)
    (Hspf : plain_value (SPFType config) = true)
    (Hrecords : ∀ r, r ∈ Records config →
       plain_value (Type_ r) = true ∧ plain_value (Prefix r) = true
       ∧ plain_value (Value r) = true) :
  ∃ new, sent (snd (SetDNSConfiguration config s)) = sent s ++ new
    ∧ ∀ req body, req ∈ new → ReqBody req = Some body →
        form_urldecode body
        = [("sessionID", sessionID (receiver s)); ("cID", "1");
           ("node", "ManageDomains"); ("vhost", domain (receiver s));
           ("dmarc_type", DMARCType config); ("spf_type", SPFType config)]
          ++ flat_map (λ r, [("type", Type_ r); ("prefix", Prefix r);
                             ("value", Value r)]) (Records config)
          ++ [("action_change_txt_records", submit_caption)].
Proof.
  pose proof (SetDNSConfiguration_sent config s) as Hsent. cbn zeta in Hsent.
  eexists. split; [exact Hsent|].
  intros req body Hin Hbody.
  destruct (url_Parse _); [|now apply elem_of_nil in Hin].
  apply list_elem_of_singleton in Hin as ->. injection Hbody as <-.
  rewrite SetDNSConfiguration_form_raw.
  change (form_urldecode (raw_form (SetDNSConfiguration_fields (receiver s) config))
          = SetDNSConfiguration_fields (receiver s) config).
  apply form_urldecode_raw_form. unfold SetDNSConfiguration_fields.
  rewrite !forallb_app. cbn [forallb fst snd].
  rewrite Hsession, Hdomain, Hdmarc, Hspf.
  apply andb_true_iff; split; [reflexivity|].
  apply andb_true_iff; split; [|reflexivity].
  induction (Records config) as [|r records IH]; [reflexivity|].
  cbn [flat_map app forallb fst snd].
  destruct (Hrecords r) as (-> & -> & ->); [apply elem_of_cons; now left|].
  rewrite IH; [reflexivity|].
  intros r' Hr'. apply Hrecords. apply elem_of_cons. now right.
Qed.

(** ** Every request goes to the endpoint *)

Lemma strings_HasPrefix_refl (a : string) : strings_HasPrefix a a = true.
Proof.
  unfold strings_HasPrefix. induction a as [|c a IH]; [reflexivity|].
  cbn [String.prefix]. now destruct (ascii_dec c c).
Qed.

Lemma strings_HasPrefix_app (a x : string) : strings_HasPrefix (a +:+ x) a = true.
Proof.
  unfold strings_HasPrefix. induction a as [|c a IH]; [now destruct x|].
  simpl. now destruct (ascii_dec c c).
Qed.

Lemma GetDNSConfiguration_receiver (s : St) :
  receiver (snd (GetDNSConfiguration s)) = receiver s.
Proof.
  unfold GetDNSConfiguration. run. repeat (next_case; cbn); reflexivity.
Qed.

Lemma SetDNSConfiguration_receiver (config : DNSConfig) (s : St) :
  receiver (snd (SetDNSConfiguration config s)) = receiver s.
Proof.
  unfold SetDNSConfiguration. run. repeat (next_case; cbn); reflexivity.
Qed.

Lemma authenticate_on_endpoint (a : string) (s : St) :
  on_endpoint a s → on_endpoint a (snd (authenticate s)).
Proof.
  intros [Ha Hs]. unfold on_endpoint. rewrite authenticate_frame, authenticate_sent. cbn zeta.
  cbn [api]. split; [exact Ha|]. rewrite forallb_app, Hs, Ha. cbn [andb].
  destruct (url_Parse a); [|reflexivity].
  destruct (fst _); cbn [forallb ReqURL]; now rewrite !strings_HasPrefix_refl.
Qed.

Lemma populatePackageID_on_endpoint (a : string) (s : St) :
  on_endpoint a s → on_endpoint a (snd (populatePackageID s)).
Proof.
  intros [Ha Hs]. unfold on_endpoint. rewrite populatePackageID_frame, populatePackageID_sent.
  cbn zeta. cbn [api]. split; [exact Ha|]. rewrite forallb_app, Hs, Ha.
  cbn [andb]. destruct (url_Parse _); [|reflexivity].
  cbn [forallb ReqURL]. now rewrite strings_HasPrefix_app.
Qed.

Lemma GetDNSConfiguration_on_endpoint (a : string) (s : St) :
  on_endpoint a s → on_endpoint a (snd (GetDNSConfiguration s)).
Proof.
  intros [Ha Hs]. unfold on_endpoint. rewrite GetDNSConfiguration_receiver, GetDNSConfiguration_sent.
  cbn zeta. split; [exact Ha|]. rewrite forallb_app, Hs, Ha.
  cbn [andb]. destruct (url_Parse _); [|reflexivity].
  cbn [forallb ReqURL]. now rewrite strings_HasPrefix_app.
Qed.

Lemma SetDNSConfiguration_on_endpoint (a : string) (config : DNSConfig) (s : St) :
  on_endpoint a s → on_endpoint a (snd (SetDNSConfiguration config s)).
Proof.
  intros [Ha Hs]. unfold on_endpoint. rewrite SetDNSConfiguration_receiver, SetDNSConfiguration_sent.
  cbn zeta. split; [exact Ha|]. rewrite forallb_app, Hs, Ha.
  cbn [andb]. destruct (url_Parse _); [|reflexivity].
  cbn [forallb ReqURL]. now rewrite strings_HasPrefix_app.
Qed.

Lemma NewStratoClient_on_endpoint (a i p o d : string) (w : World) :
  forallb (λ req, strings_HasPrefix (ReqURL req) a)
    (snd (NewStratoClient a i p o d w)) = true
  ∧ ∀ c, fst (fst (NewStratoClient a i p o d w)) = Ok c → api c = a.
Proof.
  unfold NewStratoClient.
  destruct cookiejar_New as [jar|e]; [|split; [reflexivity|discriminate]].
  set (s0 := mkState _ w []).
  assert (H0 : on_endpoint a s0) by (split; reflexivity).
  apply authenticate_on_endpoint in H0.
  destruct (authenticate s0) as [[e|] s1]; cbn [snd] in H0;
    [split; [exact (proj2 H0)|discriminate]|].
  apply populatePackageID_on_endpoint in H0.
  destruct (populatePackageID s1) as [[e|] s2]; cbn [snd] in H0;
    [split; [exact (proj2 H0)|discriminate]|].
  split; [exact (proj2 H0)|]. intros c [= <-]. exact (proj1 H0).
Qed.

(** X11. The client never addresses another host than its endpoint: every
    request that [NewStratoClient] sends, whether it succeeds or not, has a
    URL that starts with the [api] argument, and every request that one of
    the four methods adds has a URL that starts with the client's [api]. *)
Theorem client_requests_on_endpoint (s : St) (config : DNSConfig) :
  let a := api (receiver s) in
  let to_a := forallb (λ req, strings_HasPrefix (ReqURL req) a) in
  (∀ i p o d w, to_a (snd (NewStratoClient a i p o d w)) = true)
  ∧ (∃ new, sent (snd (authenticate s)) = sent s ++ new ∧ to_a new = true)
  ∧ (∃ new, sent (snd (populatePackageID s)) = sent s ++ new ∧ to_a new = true)
  ∧ (∃ new, sent (snd (GetDNSConfiguration s)) = sent s ++ new ∧ to_a new = true)
  ∧ (∃ new, sent (snd (SetDNSConfiguration config s)) = sent s ++ new
            ∧ to_a new = true).
Proof.
  cbn zeta. split; [intros; apply NewStratoClient_on_endpoint|].
  split; [|split; [|split]].
  - rewrite authenticate_sent. cbn zeta. eexists. split; [reflexivity|].
    destruct (url_Parse _); [|reflexivity].
    destruct (fst _); cbn [forallb ReqURL]; now rewrite !strings_HasPrefix_refl.
  - rewrite populatePackageID_sent. cbn zeta. eexists. split; [reflexivity|].
    destruct (url_Parse _); [|reflexivity].
    cbn [forallb ReqURL]. now rewrite strings_HasPrefix_app.
  - rewrite GetDNSConfiguration_sent. cbn zeta. eexists. split; [reflexivity|].
    destruct (url_Parse _); [|reflexivity].
    cbn [forallb ReqURL]. now rewrite strings_HasPrefix_app.
  - rewrite SetDNSConfiguration_sent. cbn zeta. eexists. split; [reflexivity|].
    destruct (url_Parse _); [|reflexivity].
    cbn [forallb ReqURL]. now rewrite strings_HasPrefix_app.
Qed.

(** ** cmd/main.go: the commands *)

Lemma main_command_on_endpoint (a : string) (fl : Flags) (s : St) :
  on_endpoint a s → on_endpoint a (snd (main_command fl s)).
Proof.
  intros H. unfold main_command.
  destruct (flag_command fl =? "list")%string.
  { unfold main_list, bind, ret. apply GetDNSConfiguration_on_endpoint in H.
    destruct (GetDNSConfiguration s) as [[config [err|]] s1]; exact H. }
  destruct (flag_command fl =? "add")%string.
  { unfold main_add, bind, ret.
    destruct (flag_type fl =? "")%string; [exact H|].
    destruct (flag_prefix fl =? "")%string; [exact H|].
    destruct (flag_value fl =? "")%string; [exact H|].
    apply GetDNSConfiguration_on_endpoint in H.
    destruct (GetDNSConfiguration s) as [[config [err|]] s1]; cbn [snd] in H;
      [exact H|].
    destruct (contains _ _); [exact H|].
    apply (SetDNSConfiguration_on_endpoint a
             (with_Records config (go_append (Records config) (providedRecord fl))))
      in H.
    destruct (SetDNSConfiguration _ s1) as [[err|] s2]; cbn [snd] in H; [exact H|].
    apply GetDNSConfiguration_on_endpoint in H.
    destruct (GetDNSConfiguration s2) as [[config' [err|]] s3]; cbn [snd] in H;
      [exact H|].
    destruct (negb _); exact H. }
  destruct (flag_command fl =? "remove")%string; [|exact H].
  unfold main_remove, bind, ret.
  destruct (flag_type fl =? "")%string; [exact H|].
  destruct (flag_prefix fl =? "")%string; [exact H|].
  destruct (flag_value fl =? "")%string; [exact H|].
  apply GetDNSConfiguration_on_endpoint in H.
  destruct (GetDNSConfiguration s) as [[config [err|]] s1]; cbn [snd] in H;
    [exact H|].
  destruct (_ =? _)%nat; [exact H|].
  apply (SetDNSConfiguration_on_endpoint a
           (with_Records config
              (fold_left (main_remove_step (providedRecord fl)) (Records config) [])))
    in H.
  destruct (SetDNSConfiguration _ s1) as [[err|] s2]; cbn [snd] in H; [exact H|].
  apply GetDNSConfiguration_on_endpoint in H.
  destruct (GetDNSConfiguration s2) as [[config' [err|]] s3]; cbn [snd] in H;
    [exact H|].
  destruct (contains _ _); exact H.
Qed.

(** X12. Whatever the flags and whatever the server answers, every request
    of a run of [main] has a URL that starts with the value of [--api]. *)
Theorem main_requests_on_endpoint (fl : Flags) (w : World) :
  forallb (λ req, strings_HasPrefix (ReqURL req) (flag_api fl)) (snd (main fl w))
  = true.
Proof.
  unfold main. destruct (_ || _); [reflexivity|].
  destruct (NewStratoClient_on_endpoint (flag_api fl) (flag_identifier fl)
              (flag_password fl) (flag_order fl) (flag_domain fl) w) as [Hreqs Hapi].
  destruct (NewStratoClient _ _ _ _ _ w) as [[[c|e] w'] reqs]; cbn [fst snd] in *;
    [|exact Hreqs].
  assert (H : on_endpoint (flag_api fl) (mkState c w' reqs))
    by (split; [now apply Hapi|exact Hreqs]).
  apply (main_command_on_endpoint _ fl) in H.
  destruct (main_command fl _) as [e s']. exact (proj2 H).
Qed.

(** X13. The command is looked at only after the login.  With the five
    required flags given and a server that lets [NewStratoClient] succeed, a
    command other than list, add and remove ends the run with the
    invalid-command message, and add or remove with an empty [--type],
    [--prefix] or [--value] ends it with the message for the first of them
    that is empty, which names the add command for remove as well; in both
    cases the requests of the run are exactly those of the constructor. *)
Theorem main_late_checks (fl : Flags) (w w' : World) (c : Client)
    (reqs : list Request)
    (Hflags : flag_identifier fl ≠ "" ∧ flag_password fl ≠ "" ∧ flag_order fl ≠ ""
              ∧ flag_domain fl ≠ "" ∧ flag_command fl ≠ "")
    (Hnew : NewStratoClient (flag_api fl) (flag_identifier fl) (flag_password fl)
              (flag_order fl) (flag_domain fl) w = (Ok c, w', reqs)) :
  (flag_command fl ≠ "list" → flag_command fl ≠ "add" → flag_command fl ≠ "remove" →
   main fl w = (Fatal ("Invalid command: " +:+ flag_command fl
                       +:+ ". Use add, remove, or list"), w', reqs))
  ∧ (flag_command fl = "add" ∨ flag_command fl = "remove" →
     (flag_type fl = "" →
      main fl w = (Fatal "--type is required for add command", w', reqs))
     ∧ (flag_type fl ≠ "" → flag_prefix fl = "" →
        main fl w = (Fatal "--prefix is required for add command", w', reqs))
     ∧ (flag_type fl ≠ "" → flag_prefix fl ≠ "" → flag_value fl = "" →
        main fl w = (Fatal "--value is required for add command", w', reqs))).
Proof.
  destruct Hflags as (Hi & Hp & Ho & Hd & Hc).
  unfold main. rewrite Hnew.
  apply String.eqb_neq in Hi, Hp, Ho, Hd, Hc. rewrite Hi, Hp, Ho, Hd, Hc.
  cbn [orb]. unfold main_command. split.
  - intros H1 H2 H3. apply String.eqb_neq in H1, H2, H3.
    rewrite H1, H2, H3. reflexivity.
  - intros Hcmd.
    assert (Hrun : ∀ e, (main_add fl (mkState c w' reqs) = (e, mkState c w' reqs)) →
                        (main_remove fl (mkState c w' reqs) = (e, mkState c w' reqs)) →
              (let '(e0, s) :=
                 (if (flag_command fl =? "list")%string then main_list
                  else if (flag_command fl =? "add")%string then main_add fl
                  else if (flag_command fl =? "remove")%string then main_remove fl
                  else ret (Fatal ("Invalid command: " +:+ flag_command fl
                                   +:+ ". Use add, remove, or list")))
                   (mkState c w' reqs) in (e0, world s, sent s))
              = (e, w', reqs)).
    { intros e Hadd Hremove.
      destruct Hcmd as [-> | ->]; cbn [String.eqb Ascii.eqb Bool.eqb];
        [rewrite Hadd|rewrite Hremove]; reflexivity. }
    split; [|split].
    + intros Ht. apply Hrun; unfold main_add, main_remove; rewrite Ht; reflexivity.
    + intros Ht Hpre. apply String.eqb_neq in Ht.
      apply Hrun; unfold main_add, main_remove; rewrite Ht, Hpre; reflexivity.
    + intros Ht Hpre Hv. apply String.eqb_neq in Ht, Hpre.
      apply Hrun; unfold main_add, main_remove; rewrite Ht, Hpre, Hv; reflexivity.
Qed.

(** X14. When the add command returns, the server's last answer lists the
    record.  Either the first configuration read already holds it, and then
    that read is the only request and nothing is written; or it does not,
    the configuration read is written back unchanged but for the record
    appended after the others, the write is accepted, and the configuration
    read afterwards holds the record. *)
Theorem main_add_returns (fl : Flags) (s s' : St)
    (Hrun : main_add fl s = (Returned, s')) :
  let provided := providedRecord fl in
  flag_type fl ≠ "" ∧ flag_prefix fl ≠ "" ∧ flag_value fl ≠ ""
  ∧ ∃ config s1, GetDNSConfiguration s = ((config, None), s1)
    ∧ ((provided ∈ Records config ∧ s' = s1
        ∧ ∃ req, sent s' = sent s ++ [req] ∧ Method req = "GET")
       ∨ ((provided ∉ Records config)
          ∧ ∃ s2 config',
              SetDNSConfiguration
                {| DMARCType := DMARCType config; SPFType := SPFType config;
                   Records := Records config ++ [provided] |} s1 = (None, s2)
              ∧ GetDNSConfiguration s2 = ((config', None), s')
              ∧ provided ∈ Records config')).
Proof.
  cbn zeta. revert Hrun. unfold main_add, bind, ret.
  destruct (String.eqb_spec (flag_type fl) ""); [discriminate|].
  destruct (String.eqb_spec (flag_prefix fl) ""); [discriminate|].
  destruct (String.eqb_spec (flag_value fl) ""); [discriminate|].
  destruct (GetDNSConfiguration s) as [[config [err|]] s1] eqn:Hget; [discriminate|].
  destruct (contains (Records config) (providedRecord fl)) eqn:Hc.
  - intros [= <-]. do 3 (split; [assumption|]). exists config, s1.
    split; [reflexivity|]. left.
    split; [now apply list_elem_of_In, contains_In|]. split; [reflexivity|].
    pose proof (GetDNSConfiguration_sent s) as Hsent. cbn zeta in Hsent.
    destruct (GetDNSConfiguration_nil_parsed _ _ _ Hget) as [u Hu].
    rewrite Hu, Hget in Hsent. cbn [snd] in Hsent.
    eexists. split; [exact Hsent|reflexivity].
  - destruct (SetDNSConfiguration _ s1) as [[err|] s2] eqn:Hset; [discriminate|].
    destruct (GetDNSConfiguration s2) as [[config' [err|]] s3] eqn:Hget';
      [discriminate|].
    destruct (contains (Records config') _) eqn:Hc'; cbn [negb]; [|discriminate].
    intros [= <-]. do 3 (split; [assumption|]). exists config, s1.
    split; [reflexivity|]. right. split.
    + intros Hin. apply list_elem_of_In, contains_In in Hin. congruence.
    + exists s2, config'. split; [exact Hset|]. split; [exact Hget'|].
      now apply list_elem_of_In, contains_In.
Qed.

(** X15. When the remove command returns, the server's last answer does not
    list the record.  Either the first configuration read does not hold it,
    and then nothing is written; or it does, the configuration is written
    back with every copy of the record taken out and the other records in
    their order, the write is accepted, and the configuration read afterwards
    is free of the record. *)
Theorem main_remove_returns (fl : Flags) (s s' : St)
    (Hrun : main_remove fl s = (Returned, s')) :
  let provided := providedRecord fl in
  flag_type fl ≠ "" ∧ flag_prefix fl ≠ "" ∧ flag_value fl ≠ ""
  ∧ ∃ config s1, GetDNSConfiguration s = ((config, None), s1)
    ∧ (((provided ∉ Records config) ∧ s' = s1
        ∧ ∃ req, sent s' = sent s ++ [req] ∧ Method req = "GET")
       ∨ (provided ∈ Records config
          ∧ ∃ s2 config',
              SetDNSConfiguration
                {| DMARCType := DMARCType config; SPFType := SPFType config;
                   Records := List.filter (λ r, negb (same_record r provided))
                                (Records config) |} s1 = (None, s2)
              ∧ GetDNSConfiguration s2 = ((config', None), s')
              ∧ (provided ∉ Records config'))).
Proof.
  cbn zeta. revert Hrun. unfold main_remove, bind, ret.
  destruct (String.eqb_spec (flag_type fl) ""); [discriminate|].
  destruct (String.eqb_spec (flag_prefix fl) ""); [discriminate|].
  destruct (String.eqb_spec (flag_value fl) ""); [discriminate|].
  destruct (GetDNSConfiguration s) as [[config [err|]] s1] eqn:Hget; [discriminate|].
  rewrite main_remove_unchanged.
  rewrite (main_remove_fold _ _ []). cbn [app].
  destruct (contains (Records config) (providedRecord fl)) eqn:Hc; cbn [negb].
  - destruct (SetDNSConfiguration _ s1) as [[err|] s2] eqn:Hset; [discriminate|].
    destruct (GetDNSConfiguration s2) as [[config' [err|]] s3] eqn:Hget';
      [discriminate|].
    destruct (contains (Records config') _) eqn:Hc'; [discriminate|].
    intros [= <-]. do 3 (split; [assumption|]). exists config, s1.
    split; [reflexivity|]. right.
    split; [now apply list_elem_of_In, contains_In|].
    exists s2, config'. split; [exact Hset|]. split; [exact Hget'|].
    intros Hin. apply list_elem_of_In, contains_In in Hin. congruence.
  - intros [= <-]. do 3 (split; [assumption|]). exists config, s1.
    split; [reflexivity|]. left. split.
    { intros Hin. apply list_elem_of_In, contains_In in Hin. congruence. }
    split; [reflexivity|].
    pose proof (GetDNSConfiguration_sent s) as Hsent. cbn zeta in Hsent.
    destruct (GetDNSConfiguration_nil_parsed _ _ _ Hget) as [u Hu].
    rewrite Hu, Hget in Hsent. cbn [snd] in Hsent.
    eexists. split; [exact Hsent|reflexivity].
Qed.

(** ** How much a run sends *)

Lemma authenticate_budget (s : St) :
  (length (sent (snd (authenticate s))) ≤ length (sent s) + 2)%nat
  ∧ (length (posts (sent (snd (authenticate s)))) ≤ length (posts (sent s)) + 1)%nat.
Proof.
  rewrite authenticate_sent. cbn zeta. unfold posts.
  rewrite List.filter_app, !length_app.
  destruct (url_Parse _); [|cbn [List.filter length]; lia].
  destruct (fst _); cbn [List.filter Method length];
    change ("GET" =? "POST")%string with false;
    change ("POST" =? "POST")%string with true; cbn [length]; lia.
Qed.

Lemma populatePackageID_budget (s : St) :
  (length (sent (snd (populatePackageID s))) ≤ length (sent s) + 1)%nat
  ∧ (length (posts (sent (snd (populatePackageID s)))) ≤ length (posts (sent s)))%nat.
Proof.
  rewrite populatePackageID_sent. cbn zeta. unfold posts.
  rewrite List.filter_app, !length_app.
  destruct (url_Parse _); cbn [List.filter Method length];
    try change ("GET" =? "POST")%string with false; cbn [length]; lia.
Qed.

Lemma GetDNSConfiguration_budget (s : St) :
  (length (sent (snd (GetDNSConfiguration s))) ≤ length (sent s) + 1)%nat
  ∧ (length (posts (sent (snd (GetDNSConfiguration s))))
     ≤ length (posts (sent s)))%nat.
Proof.
  rewrite GetDNSConfiguration_sent. cbn zeta. unfold posts.
  rewrite List.filter_app, !length_app.
  destruct (url_Parse _); cbn [List.filter Method length];
    try change ("GET" =? "POST")%string with false; cbn [length]; lia.
Qed.

Lemma SetDNSConfiguration_budget (config : DNSConfig) (s : St) :
  (length (sent (snd (SetDNSConfiguration config s))) ≤ length (sent s) + 1)%nat
  ∧ (length (posts (sent (snd (SetDNSConfiguration config s))))
     ≤ length (posts (sent s)) + 1)%nat.
Proof.
  rewrite SetDNSConfiguration_sent. cbn zeta. unfold posts.
  rewrite List.filter_app, !length_app.
  destruct (url_Parse _); cbn [List.filter Method length];
    try change ("POST" =? "POST")%string with true; cbn [length]; lia.
Qed.

Lemma NewStratoClient_budget (a i p o d : string) (w : World) :
  (length (snd (NewStratoClient a i p o d w)) ≤ 3)%nat
  ∧ (length (posts (snd (NewStratoClient a i p o d w))) ≤ 1)%nat.
Proof.
  unfold NewStratoClient.
  destruct cookiejar_New as [jar|e]; [|cbn; lia].
  set (s0 := mkState _ w []).
  pose proof (authenticate_budget s0) as H1.
  change (sent s0) with (@nil Request) in H1. cbn [length posts List.filter] in H1.
  destruct (authenticate s0) as [[e|] s1]; cbn [snd] in *; [lia|].
  pose proof (populatePackageID_budget s1) as H2.
  destruct (populatePackageID s1) as [[e|] s2]; cbn [snd] in *; lia.
Qed.

Lemma main_command_budget (fl : Flags) (s : St) :
  (length (sent (snd (main_command fl s))) ≤ length (sent s) + 3)%nat
  ∧ (length (posts (sent (snd (main_command fl s))))
     ≤ length (posts (sent s))
       + if (flag_command fl =? "add")%string || (flag_command fl =? "remove")%string
         then 1 else 0)%nat.
Proof.
  unfold main_command.
  destruct (String.eqb_spec (flag_command fl) "list") as [->|_].
  { unfold main_list, bind, ret. pose proof (GetDNSConfiguration_budget s) as H1.
    destruct (GetDNSConfiguration s) as [[config [err|]] s1]; cbn [snd] in *;
      change (("list" =? "add")%string || ("list" =? "remove")%string) with false;
      cbv iota; lia. }
  destruct (String.eqb_spec (flag_command fl) "add") as [->|_].
  { cbn [orb]. cbv iota. unfold main_add, bind, ret. cbv zeta.
    destruct (flag_type fl =? "")%string; [cbn [snd]; lia|].
    destruct (flag_prefix fl =? "")%string; [cbn [snd]; lia|].
    destruct (flag_value fl =? "")%string; [cbn [snd]; lia|].
    pose proof (GetDNSConfiguration_budget s) as H1.
    destruct (GetDNSConfiguration s) as [[config [err|]] s1]; cbn [snd] in *; [lia|].
    destruct (contains _ _); [cbn [snd]; lia|].
    pose proof (SetDNSConfiguration_budget
                  (with_Records config (go_append (Records config) (providedRecord fl)))
                  s1) as H2.
    destruct (SetDNSConfiguration _ s1) as [[err|] s2]; cbn [snd] in *; [lia|].
    pose proof (GetDNSConfiguration_budget s2) as H3.
    destruct (GetDNSConfiguration s2) as [[config' [err|]] s3]; cbn [snd] in *; [lia|].
    destruct (negb _); cbn [snd]; lia. }
  cbn [orb].
  destruct (String.eqb_spec (flag_command fl) "remove") as [_|_];
    [|unfold ret; cbn [snd]; lia].
  cbv iota. unfold main_remove, bind, ret. cbv zeta.
  destruct (flag_type fl =? "")%string; [cbn [snd]; lia|].
  destruct (flag_prefix fl =? "")%string; [cbn [snd]; lia|].
  destruct (flag_value fl =? "")%string; [cbn [snd]; lia|].
  pose proof (GetDNSConfiguration_budget s) as H1.
  destruct (GetDNSConfiguration s) as [[config [err|]] s1]; cbn [snd] in *; [lia|].
  destruct (_ =? _)%nat; [cbn [snd]; lia|].
  pose proof (SetDNSConfiguration_budget
                (with_Records config
                   (fold_left (main_remove_step (providedRecord fl))
                      (Records config) []))
                s1) as H2.
  destruct (SetDNSConfiguration _ s1) as [[err|] s2]; cbn [snd] in *; [lia|].
  pose proof (GetDNSConfiguration_budget s2) as H3.
  destruct (GetDNSConfiguration s2) as [[config' [err|]] s3]; cbn [snd] in *; [lia|].
  destruct (contains _ _); cbn [snd]; lia.
Qed.

(** X16. A run of [main] sends at most six requests, whatever the flags and
    the answers.  At most two of them are POSTs, the login and one update,
    and at most one, the login, unless the command is add or remove. *)
Theorem main_request_budget (fl : Flags) (w : World) :
  (length (snd (main fl w)) ≤ 6)%nat
  ∧ (length (posts (snd (main fl w)))
     ≤ if (flag_command fl =? "add")%string || (flag_command fl =? "remove")%string
       then 2 else 1)%nat.
Proof.
  unfold main. destruct (_ || _ || _ || _ || _).
  { cbn [snd length posts List.filter]. split; [lia|]. destruct (_ || _); lia. }
  pose proof (NewStratoClient_budget (flag_api fl) (flag_identifier fl)
                (flag_password fl) (flag_order fl) (flag_domain fl) w) as H1.
  destruct (NewStratoClient _ _ _ _ _ w) as [[[c|e] w'] reqs]; cbn [snd] in *.
  - pose proof (main_command_budget fl (mkState c w' reqs)) as H2.
    destruct (main_command fl _) as [e s']. cbn [snd sent] in *.
    destruct (_ || _); lia.
  - destruct (_ || _); lia.
Qed.

End Properties.
(** * The client run on [Sim] *)

#[local] Existing Instance Sim.env.

(** C1. The constructor does not fail when the identifier lookup cannot send
    its request: after an accepted login, with a server that no longer
    answers, [NewStratoClient] returns a client and a nil error; the client's
    [cID] is empty. *)
Theorem NewStratoClient_swallows_send_error :
  ∃ c reqs req,
    NewStratoClient "https://host/apps" "user" "secret" "ORDER1" "example.org"
      Sim.login_then_silence
    = (Ok c, [], reqs)
    ∧ sessionID c = "S1" ∧ cID c = ""
    ∧ last reqs = Some req
    ∧ ReqURL req
      = "https://host/apps?sessionID=S1&cID=0&node=kds_CustomerEntryPage"
    ∧ Sim.Do (session c) req [] = (Err (lib_error "dial tcp: connection refused"), []).
Proof.
  eexists _, _, _. split; [vm_compute; reflexivity|].
  repeat split; vm_compute; reflexivity.
Qed.

(** C2, witness: the redirect of the specification's example. *)
Lemma authenticate_classifies_witness :
  authenticate Sim.login_ok
  = (None, snd (set_sessionID "abc123" (snd (authenticate Sim.login_ok))))
  ∧ sessionID (receiver (snd (authenticate Sim.login_ok))) = "abc123".
Proof.
  destruct (authenticate_reply Sim.login_ok) as [[resp s1]|] eqn:Hr;
    [|vm_compute in Hr; discriminate].
  pose proof Hr as Hv. vm_compute in Hv. injection Hv as Hresp Hs1.
  destruct (authenticate_classifies _ _ _ Hr) as [H302 _].
  subst resp.
  edestruct (H302 eq_refl) as [Hok _]; [vm_compute; reflexivity|].
  edestruct Hok as [Ha Hb]; [vm_compute; reflexivity|discriminate|].
  split; [|exact Hb]. rewrite Ha. subst s1. vm_compute. reflexivity.
Defined.

(** C2, counterexample: a 302 whose Location carries [sessionID=] with an
    empty value is a login failure, not a success that stores the value. *)
Lemma authenticate_rejects_empty_token :
  ¬ (∀ (s s1 : St) (resp : Response Payload) (u : URL) (T : string)
       (rest : list string),
       authenticate_reply s = Some (resp, s1) →
       StatusCode resp = 302 →
       url_Parse (Values_Get (Header resp) "Location") = Ok u →
       Values_lookup (URL_Query u) "sessionID" = Some (T :: rest) →
       fst (authenticate s) = None
       ∧ sessionID (receiver (snd (authenticate s))) = T).
Proof.
  intros H.
  destruct (authenticate_reply Sim.login_empty_token) as [[resp s1]|] eqn:Hr;
    [|vm_compute in Hr; discriminate].
  pose proof Hr as Hv. vm_compute in Hv. injection Hv as Hresp Hs1. subst resp.
  destruct (H _ _ _ (Sim.mkUrl "/x" "sessionID=") "" [] Hr eq_refl) as [Hnone _];
    [vm_compute; reflexivity|vm_compute; reflexivity|].
  vm_compute in Hnone. discriminate.
Qed.

(** C4, witness: the link of the specification's example resolves to 987. *)
Lemma populatePackageID_resolves_witness :
  fst (populatePackageID Sim.dashboard_ok) = None
  ∧ cID (receiver (snd (populatePackageID Sim.dashboard_ok))) = "987".
Proof.
  destruct (populatePackageID_page Sim.dashboard_ok) as [[doc s1]|] eqn:Hp;
    [|vm_compute in Hp; discriminate].
  pose proof Hp as Hv. vm_compute in Hv. injection Hv as Hdoc Hs1.
  destruct (populatePackageID_resolves _ _ _ Hp) as (_ & Hdiv & _).
  subst doc.
  edestruct Hdiv as [_ Ha]; [vm_compute; reflexivity|].
  edestruct Ha as [_ Hlink]; [vm_compute; reflexivity|].
  destruct Hlink as [Hfirst _]; [vm_compute; discriminate|].
  edestruct Hfirst as [Hrun Hc]; [vm_compute; reflexivity|vm_compute; discriminate|].
  split; [now rewrite Hrun|]. rewrite Hc. vm_compute. reflexivity.
Defined.

(** C4, counterexample: a link with the part [cID=] has a part keyed by the
    customer-id parameter, and the lookup fails on it instead of returning
    what follows [cID=]. *)
Lemma populatePackageID_rejects_empty_cID :
  ¬ (∀ (s s1 : St) (doc div a : Node) (part : string),
       populatePackageID_page s = Some (doc, s1) →
       htmlquery_FindOne doc
         ("//div[@data-pkg-name-order='" +:+ order (receiver s) +:+ "']")
       = Some div →
       htmlquery_FindOne div ".//a" = Some a →
       part ∈ strings_Split (Node_attr a "href") "&" →
       strings_HasPrefix part "cID=" = true →
       fst (populatePackageID s) = None
       ∧ cID (receiver (snd (populatePackageID s)))
         = strings_TrimPrefix part "cID=").
Proof.
  intros H.
  destruct (populatePackageID_page Sim.dashboard_empty_cID) as [[doc s1]|] eqn:Hp;
    [|vm_compute in Hp; discriminate].
  pose proof Hp as Hv. vm_compute in Hv. injection Hv as Hdoc Hs1. subst doc.
  destruct (H _ _ _ (Sim.package "ORDER1" "https://host/x?sessionID=S1&cID=")
              (Sim.link "https://host/x?sessionID=S1&cID=") "cID=" Hp)
    as [Hnone _];
    [vm_compute; reflexivity|vm_compute; reflexivity| |reflexivity|].
  - vm_compute. apply list_elem_of_In. right. left. reflexivity.
  - vm_compute in Hnone. discriminate.
Qed.

(** C5, witness: a 200 page with the form is read without the form-not-found
    error. *)
Lemma GetDNSConfiguration_fetch_witness :
  snd (fst (GetDNSConfiguration Sim.read_ok))
  ≠ Some (errors_New "failed to find form element").
Proof.
  destruct (GetDNSConfiguration_reply Sim.read_ok) as [[resp s1]|] eqn:Hr;
    [|vm_compute in Hr; discriminate].
  pose proof Hr as Hv. vm_compute in Hv. injection Hv as Hresp Hs1.
  destruct (GetDNSConfiguration_fetch _ _ _ Hr) as [_ H200]. subst resp.
  destruct (H200 eq_refl) as [_ Hdoc].
  intros Herr. eapply Hdoc in Herr; [|vm_compute; reflexivity].
  vm_compute in Herr. discriminate.
Defined.

(** C5, counterexample: a 203 answer is a 2xx answer, and the reader reports
    a fetch failure for it without looking at the page. *)
Lemma GetDNSConfiguration_rejects_203 :
  ¬ (∀ (s s1 : St) (resp : Response Payload),
       GetDNSConfiguration_reply s = Some (resp, s1) →
       200 ≤ StatusCode resp < 300 →
       snd (fst (GetDNSConfiguration s))
       ≠ Some (errors_New "failed to fetch TXT records")).
Proof.
  intros H.
  destruct (GetDNSConfiguration_reply Sim.read_203) as [[resp s1]|] eqn:Hr;
    [|vm_compute in Hr; discriminate].
  pose proof Hr as Hv. vm_compute in Hv. injection Hv as Hresp Hs1. subst resp.
  apply (H _ _ _ Hr); [cbn; lia|]. vm_compute. reflexivity.
Qed.

(** C6, witness: of three rows, the one without textarea is left out and the
    one without prefix input has an empty [Prefix]. *)
Lemma GetDNSConfiguration_records_witness :
  fst (GetDNSConfiguration Sim.read_ok)
  = (mkDNSConfig "quarantine" "strict"
       [mkDNSRecord "TXT" "@" "hello"; mkDNSRecord "TXT-SPF" "" "v=spf1 -all"],
     None).
Proof.
  destruct (GetDNSConfiguration_page Sim.read_ok) as [[doc s1]|] eqn:Hp;
    [|vm_compute in Hp; discriminate].
  pose proof Hp as Hv. vm_compute in Hv. injection Hv as Hdoc Hs1. subst doc.
  edestruct (λ form dmarcNode spfNode,
               GetDNSConfiguration_records _ _ _ form dmarcNode spfNode Hp)
    as [Hrun _];
    [vm_compute; reflexivity|vm_compute; reflexivity|vm_compute; discriminate
    |vm_compute; reflexivity|vm_compute; discriminate|].
  rewrite Hrun. vm_compute. reflexivity.
Defined.

(** C7, witness: a 302 answer to the write. *)
Lemma SetDNSConfiguration_classifies_witness :
  fst (SetDNSConfiguration Sim.one_record Sim.write_ok) = None.
Proof.
  destruct (SetDNSConfiguration_reply Sim.one_record Sim.write_ok)
    as [[resp s1]|] eqn:Hr; [|vm_compute in Hr; discriminate].
  pose proof Hr as Hv. vm_compute in Hv. injection Hv as Hresp Hs1. subst resp.
  destruct (SetDNSConfiguration_classifies _ _ _ _ Hr) as [H302 _].
  now rewrite (H302 eq_refl).
Defined.

(** C8, witness: the configuration read from the record page. *)
Lemma GetDNSConfiguration_types_nonempty_witness :
  DMARCType (fst (fst (GetDNSConfiguration Sim.read_ok))) ≠ ""
  ∧ SPFType (fst (fst (GetDNSConfiguration Sim.read_ok))) ≠ "".
Proof.
  destruct (GetDNSConfiguration Sim.read_ok) as [[cfg [e|]] s'] eqn:Hrun;
    [vm_compute in Hrun; discriminate|].
  destruct (GetDNSConfiguration_types_nonempty _ _ _ Hrun) as (Hd & Hs & _).
  split; assumption.
Defined.

(** C9. Both POST bodies are the fields joined with '=' and '&' and nothing
    escaped; with a '&' or '=' inside a password or a record value, the body
    read back as form data does not give the fields that were meant. *)
Theorem bodies_are_not_escaped :
  (∀ (E : GoEnv) (s : St),
     ∃ reqs, sent (snd (authenticate s)) = sent s ++ reqs
       ∧ ∀ req, req ∈ reqs → Method req = "POST" →
           ReqBody req = Some (raw_form (authenticate_fields (receiver s))))
  ∧ (∀ (E : GoEnv) (config : DNSConfig) (s : St),
       ∃ reqs, sent (snd (SetDNSConfiguration config s)) = sent s ++ reqs
         ∧ ∀ req, req ∈ reqs →
             ReqBody req
             = Some (raw_form (SetDNSConfiguration_fields (receiver s) config)))
  ∧ (∃ req body,
       req ∈ sent (snd (authenticate Sim.tricky_login))
       ∧ ReqBody req = Some body
       ∧ body = "identifier=user&passwd=p&admin=1&action_customer_login.x=Login"
       ∧ form_urldecode body
         = [("identifier", "user"); ("passwd", "p"); ("admin", "1");
            ("action_customer_login.x", "Login")]
       ∧ form_urldecode body ≠ authenticate_fields (receiver Sim.tricky_login))
  ∧ (∃ req body,
       req ∈ sent (snd (SetDNSConfiguration Sim.tricky_record Sim.tricky_write))
       ∧ ReqBody req = Some body
       ∧ ("p", "none") ∈ form_urldecode body
       ∧ form_urldecode body
         ≠ SetDNSConfiguration_fields (receiver Sim.tricky_write) Sim.tricky_record).
Proof.
  split; [|split; [|split]].
  - intros E s. eexists. split; [apply authenticate_sent|].
    intros req Hin HPOST. cbn zeta in Hin.
    destruct (url_Parse _); [|now apply elem_of_nil in Hin].
    apply elem_of_cons in Hin as [->|Hin]; [discriminate|].
    destruct (fst _); [|now apply elem_of_nil in Hin].
    apply list_elem_of_singleton in Hin as ->. reflexivity.
  - intros E config s. eexists. split; [apply SetDNSConfiguration_sent|].
    intros req Hin. cbn zeta in Hin.
    destruct (url_Parse _); [|now apply elem_of_nil in Hin].
    apply list_elem_of_singleton in Hin as ->. cbn [ReqBody].
    now rewrite SetDNSConfiguration_form_raw.
  - eexists _, _. split; [|split; [|split; [|split]]].
    + vm_compute. apply list_elem_of_In. right. left. reflexivity.
    + reflexivity.
    + vm_compute. reflexivity.
    + vm_compute. reflexivity.
    + vm_compute. discriminate.
  - eexists _, _. split; [|split; [|split]].
    + vm_compute. apply list_elem_of_In. left. reflexivity.
    + reflexivity.
    + vm_compute. apply list_elem_of_In. do 9 right. left. reflexivity.
    + vm_compute. discriminate.
Qed.

(** ** Further properties, on [Sim] *)

(** X4, witness: the page answered with 203. *)
Lemma GetDNSConfiguration_error_zero_witness :
  fst (fst (GetDNSConfiguration Sim.read_203)) = DNSConfig_zero.
Proof.
  destruct (GetDNSConfiguration Sim.read_203) as [[cfg [e|]] s'] eqn:Hrun;
    [|vm_compute in Hrun; discriminate].
  exact (GetDNSConfiguration_error_zero _ _ _ _ Hrun).
Defined.


(** X8, witness: the login is accepted and the dashboard is shown. *)
Lemma NewStratoClient_requests_witness :
  ∃ c w' reqs,
    NewStratoClient "https://host/apps" "user" "secret" "ORDER1" "example.org"
      Sim.constructor_ok = (Ok c, w', reqs)
    ∧ reqs
      = [mkRequest "GET" "https://host/apps" [] None;
         mkRequest "POST" "https://host/apps"
           [("Content-Type", ["application/x-www-form-urlencoded"])]
           (Some "identifier=user&passwd=secret&action_customer_login.x=Login");
         mkRequest "GET"
           "https://host/apps?sessionID=S1&cID=0&node=kds_CustomerEntryPage"
           [] None].
Proof.
  destruct (@NewStratoClient Sim.env "https://host/apps" "user" "secret" "ORDER1"
              "example.org" Sim.constructor_ok) as [[[c|e] w'] reqs] eqn:Hnew;
    [|vm_compute in Hnew; discriminate].
  exists c, w', reqs. split; [reflexivity|].
  rewrite (NewStratoClient_requests _ _ _ _ _ _ _ _ _ Hnew).
  pose proof Hnew as Hv. vm_compute in Hv. injection Hv as Hc _ _. subst c.
  vm_compute. reflexivity.
Defined.

(** X9, witness: an identifier and a password of letters. *)
Lemma authenticate_body_reads_back_witness :
  ∃ new, sent (snd (authenticate Sim.login_ok)) = sent Sim.login_ok ++ new
    ∧ ∀ req body, req ∈ new → ReqBody req = Some body →
        form_urldecode body
        = [("identifier", "user"); ("passwd", "secret");
           ("action_customer_login.x", "Login")].
Proof.
  apply (authenticate_body_reads_back Sim.login_ok); vm_compute; reflexivity.
Defined.

(** X10, witness: a configuration with one record of letters. *)
Lemma SetDNSConfiguration_body_reads_back_witness :
  ∃ new, sent (snd (SetDNSConfiguration Sim.one_record Sim.write_ok))
         = sent Sim.write_ok ++ new
    ∧ ∀ req body, req ∈ new → ReqBody req = Some body →
        form_urldecode body
        = [("sessionID", "S1"); ("cID", "1"); ("node", "ManageDomains");
           ("vhost", "example.org"); ("dmarc_type", "quarantine");
           ("spf_type", "strict"); ("type", "TXT"); ("prefix", "@");
           ("value", "hello"); ("action_change_txt_records", submit_caption)].
Proof.
  apply (SetDNSConfiguration_body_reads_back Sim.one_record Sim.write_ok);
    try (vm_compute; reflexivity).
  intros r Hr. apply list_elem_of_singleton in Hr as ->.
  repeat split; vm_compute; reflexivity.
Defined.

(** X13, witness: an unknown command, and a remove without [--prefix]. *)
Lemma main_late_checks_witness :
  fst (fst (main (Sim.flags "purge" "TXT" "" "") Sim.constructor_ok))
  = Fatal "Invalid command: purge. Use add, remove, or list"
  ∧ fst (fst (main (Sim.flags "remove" "TXT" "" "v") Sim.constructor_ok))
    = Fatal "--prefix is required for add command".
Proof.
  destruct (@NewStratoClient Sim.env "https://host/apps" "user" "secret" "ORDER1"
              "example.org" Sim.constructor_ok) as [[[c|e] w'] reqs] eqn:Hnew;
    [|vm_compute in Hnew; discriminate].
  split.
  - edestruct (main_late_checks (Sim.flags "purge" "TXT" "" "")) as [Hbad _];
      [repeat split; vm_compute; discriminate|exact Hnew|].
    rewrite Hbad; [reflexivity|discriminate|discriminate|discriminate].
  - edestruct (main_late_checks (Sim.flags "remove" "TXT" "" "v")) as [_ Hmissing];
      [repeat split; vm_compute; discriminate|exact Hnew|].
    destruct (Hmissing (or_intror eq_refl)) as (_ & Hprefix & _).
    rewrite Hprefix; [reflexivity|discriminate|reflexivity].
Defined.

(** X14, witness: the record is not on the first page and is on the second. *)
Lemma main_add_returns_witness :
  ∃ s', main_add (Sim.flags "add" "TXT" "_acme" "token") Sim.add_run = (Returned, s')
    ∧ ∃ config s1 s2 config',
        GetDNSConfiguration Sim.add_run = ((config, None), s1)
        ∧ SetDNSConfiguration
            {| DMARCType := DMARCType config; SPFType := SPFType config;
               Records := Records config ++ [mkDNSRecord "TXT" "_acme" "token"] |}
            s1 = (None, s2)
        ∧ GetDNSConfiguration s2 = ((config', None), s')
        ∧ mkDNSRecord "TXT" "_acme" "token" ∈ Records config'.
Proof.
  destruct (main_add (Sim.flags "add" "TXT" "_acme" "token") Sim.add_run)
    as [e s'] eqn:Hrun.
  assert (He : e = Returned).
  { pose proof Hrun as Hv. vm_compute in Hv. now injection Hv as <- _. }
  subst e. exists s'. split; [reflexivity|].
  destruct (main_add_returns _ _ _ Hrun)
    as (_ & _ & _ & config & s1 & Hget
        & [(Hin & _)|(_ & s2 & config' & Hset & Hget' & Hin')]).
  - exfalso. pose proof Hget as Hv. vm_compute in Hv. injection Hv as Hconfig _.
    subst config. apply list_elem_of_In in Hin. vm_compute in Hin.
    destruct Hin as [Hin|[]]. discriminate Hin.
  - exists config, s1, s2, config'. repeat split; assumption.
Defined.

(** X15, witness: the record is on the first page and not on the second. *)
Lemma main_remove_returns_witness :
  ∃ s', main_remove (Sim.flags "remove" "TXT" "_acme" "token") Sim.remove_run
        = (Returned, s')
    ∧ ∃ config s1 s2 config',
        GetDNSConfiguration Sim.remove_run = ((config, None), s1)
        ∧ SetDNSConfiguration
            {| DMARCType := DMARCType config; SPFType := SPFType config;
               Records :=
                 List.filter
                   (λ r, negb (same_record r (mkDNSRecord "TXT" "_acme" "token")))
                   (Records config) |}
            s1 = (None, s2)
        ∧ GetDNSConfiguration s2 = ((config', None), s')
        ∧ mkDNSRecord "TXT" "_acme" "token" ∉ Records config'.
Proof.
  destruct (main_remove (Sim.flags "remove" "TXT" "_acme" "token") Sim.remove_run)
    as [e s'] eqn:Hrun.
  assert (He : e = Returned).
  { pose proof Hrun as Hv. vm_compute in Hv. now injection Hv as <- _. }
  subst e. exists s'. split; [reflexivity|].
  destruct (main_remove_returns _ _ _ Hrun)
    as (_ & _ & _ & config & s1 & Hget
        & [(Hnin & _)|(_ & s2 & config' & Hset & Hget' & Hnin')]).
  - exfalso. apply Hnin. pose proof Hget as Hv. vm_compute in Hv.
    injection Hv as Hconfig _. subst config. apply list_elem_of_In.
    vm_compute. right. left. reflexivity.
  - exists config, s1, s2, config'. repeat split; assumption.
Defined.

(** ** Running the client on the examples of the specification *)

Example split_link :
  strings_Split "https://host/x?a=1&cID=987&node=k" "&"
  = ["https://host/x?a=1"; "cID=987"; "node=k"].
Proof. reflexivity. Qed.

Example query_get :
  (λ u, Values_Get (Sim.Query u) "sessionID") <$>
    (match Sim.Parse_url "/x?sessionID=abc123&foo=bar" with Ok u => Some u | Err _ => None end)
  = Some "abc123".
Proof. vm_compute. reflexivity. Qed.

Example end_to_end :
  let w : Sim.Script :=
           [Ok (Sim.page (Sim.Text "login"));
            Ok (Sim.found "https://host/x?sessionID=S1");
            Ok (Sim.page (Sim.dashboard "ORDER1" "https://host/x?sessionID=S1&cID=42"));
            Ok (Sim.page (Sim.records_page "quarantine" "strict" [Sim.row "TXT" "@" "hello"]))] in
  match NewStratoClient (E := Sim.env) "https://host/apps" "user" "secret" "ORDER1" "example.org" w with
  | (Ok c, w', _) =>
      sessionID c = "S1" /\ cID c = "42" /\
      fst (GetDNSConfiguration (mkState c w' []))
      = (mkDNSConfig "quarantine" "strict" [mkDNSRecord "TXT" "@" "hello"], None)
  | _ => False
  end.
Proof. vm_compute. auto. Qed.
